(** * Low-rank layer decompositions (decomposition/pretrain/decompositions.py)

    A shallow embedding of the three layer transformations and the two
    rank-estimation helpers of [decompositions.py], the properties the
    specification states about them, and further properties of the code.

    The Python functions work on live [torch.nn] module objects: they read the
    attributes of the layer they are given, call into tensorly, VBMF and
    torch, construct fresh modules and assign to the attributes of those.
    The embedding keeps that shape:

    - modules live in a heap and are addressed by location, so that attribute
      assignment is an in-place update and the input layer can be compared
      before and after a call;
    - the numeric libraries are not part of the file that is verified; they
      are a record of functions ([library]) the model is parametrised by,
      each returning either a value or the exception it raised;
    - the random state the numeric libraries draw from, torch's global random
      generator, the standard output and the sequence of library calls made
      are components of the world the functions run in;
    - tensors are values (a shape and row-major data) over a commutative ring
      of scalars: exact arithmetic stands in for floating point. *)

From Stdlib Require Import ZArith List String DecimalString Lia Ring.
From stdpp Require Import base gmap list.
Import ListNotations.

Local Open Scope nat_scope.

(** ** Scalars *)

Record scalar_ring := {
  scalar :> Type;
  szero : scalar;
  sone : scalar;
  sadd : scalar -> scalar -> scalar;
  smul : scalar -> scalar -> scalar;
  ssub : scalar -> scalar -> scalar;
  sopp : scalar -> scalar;
  scalar_ring_theory : ring_theory szero sone sadd smul ssub sopp eq }.

Arguments szero {_}.
Arguments sone {_}.
Arguments sadd {_} _ _.
Arguments smul {_} _ _.

(** ** Exceptions and results *)

Inductive exn :=
| AttributeError (msg : string)
| ValueError (msg : string)
| IndexError (msg : string)
| RuntimeError (msg : string)
| LibraryError (msg : string).

Inductive result (A : Type) :=
| Ok (a : A)
| Raise (e : exn).

Arguments Ok {A} a.
Arguments Raise {A} e.

(** The two initialisations the source asks tensorly for. *)
Inductive init_method := InitRandom | InitSvd.

Definition loc := nat.

(** ** The monad of effects: state and exceptions

    A computation is run in a state; it ends with a value or with a raised
    exception, and in both cases with the state it reached. There is no
    handler: nothing in the source catches an exception. *)

Definition M (W A : Type) : Type := W -> result A * W.

Definition ret {W A} (a : A) : M W A := fun w => (Ok a, w).

Definition raise {W A} (e : exn) : M W A := fun w => (Raise e, w).

Definition bind {W A B} (m : M W A) (f : A -> M W B) : M W B :=
  fun w =>
    match m w with
    | (Ok a, w1) => f a w1
    | (Raise e, w1) => (Raise e, w1)
    end.

Definition lift {W A} (r : result A) : M W A := fun w => (r, w).

Notation "x <- m ;; k" := (bind m (fun x => k))
  (at level 100, m at next level, right associativity).
Notation "m ;; k" := (bind m (fun _ => k))
  (at level 100, right associativity).

(** [wp m Q w]: running [m] in [w] ends in a result and a world that
    satisfy [Q]. *)
Definition wp {W A} (m : M W A) (Q : result A -> W -> Prop) (w : W) : Prop :=
  Q (fst (m w)) (snd (m w)).

Section Model.

Context {K : scalar_ring}.

(** ** Tensors: [numpy.ndarray] and [torch.Tensor] *)

Record ndarray := mkArray { shape : list nat; data : list K }.

(** [a.shape[i]] *)
Definition shape_at (a : ndarray) (i : nat) : result nat :=
  match nth_error (shape a) i with
  | Some d => Ok d
  | None => Raise (IndexError "tuple index out of range")
  end.

(** [max(X.shape)] *)
Definition max_shape (a : ndarray) : result nat :=
  match shape a with
  | [] => Raise (ValueError "max() arg is an empty sequence")
  | _ => Ok (list_max (shape a))
  end.

(** Row-major tabulation of an [r] x [c] matrix. *)
Definition tabulate2 (r c : nat) (f : nat -> nat -> K) : list K :=
  flat_map (fun i => map (f i) (seq 0 c)) (seq 0 r).

(** Entry [(i, j)] of a 2-D tensor. *)
Definition get2 (a : ndarray) (i j : nat) : K :=
  nth (i * nth 1 (shape a) 0 + j) (data a) szero.

(** Entry [i] of a 1-D tensor. *)
Definition get1 (a : ndarray) (i : nat) : K := nth i (data a) szero.

(** Entry [(i, j, k, l)] of a 4-D tensor. *)
Definition get4 (a : ndarray) (i j k l : nat) : K :=
  match shape a with
  | [_; d1; d2; d3] => nth (((i * d1 + j) * d2 + k) * d3 + l) (data a) szero
  | _ => szero
  end.

(** [a.transpose(1, 0)] (NumPy): only a 2-D array has axes (1, 0). *)
Definition np_transpose_1_0 (a : ndarray) : result ndarray :=
  match shape a with
  | [r; c] => Ok (mkArray [c; r] (tabulate2 c r (fun i j => get2 a j i)))
  | _ => Raise (ValueError "axes don't match array")
  end.

(** [np.expand_dims(a, axis)]: a new axis of length 1; a negative [axis]
    counts from the end of the result. *)
Definition np_expand_dims (a : ndarray) (axis : Z) : result ndarray :=
  let n := Z.of_nat (length (shape a)) in
  let at_ (k : nat) :=
    mkArray (take k (shape a) ++ 1 :: drop k (shape a)) (data a) in
  if ((0 <=? axis) && (axis <=? n))%Z then Ok (at_ (Z.to_nat axis))
  else if ((- (n + 1) <=? axis) && (axis <? 0))%Z
       then Ok (at_ (Z.to_nat (axis + n + 1)))
       else Raise (ValueError "axis out of bounds").

(** [a.copy()] and [torch.from_numpy(a)]: same shape, same values. *)
Definition np_copy (a : ndarray) : ndarray := a.
Definition from_numpy (a : ndarray) : ndarray := a.

(** [U[:, :k]] on a torch tensor. *)
Definition slice_cols (a : ndarray) (k : nat) : result ndarray :=
  match shape a with
  | [r; c] => Ok (mkArray [r; Nat.min k c] (tabulate2 r (Nat.min k c) (get2 a)))
  | _ => Raise (IndexError "too many indices for tensor")
  end.

(** [S[:k]] on a torch tensor. *)
Definition slice_rows (a : ndarray) (k : nat) : result ndarray :=
  match shape a with
  | [] => Raise (IndexError "slice() cannot be applied to a 0-dim tensor")
  | d :: rest =>
      Ok (mkArray (Nat.min k d :: rest)
                  (take (Nat.min k d * fold_right Nat.mul 1 rest) (data a)))
  end.

(** [A.t()] *)
Definition torch_t (a : ndarray) : result ndarray :=
  match shape a with
  | [] | [_] => Ok a
  | [r; c] => Ok (mkArray [c; r] (tabulate2 c r (fun i j => get2 a j i)))
  | _ => Raise (RuntimeError "t() expects a tensor with <= 2 dimensions")
  end.

(** [torch.diag(v)]: the diagonal matrix of a vector, the diagonal of a
    matrix. *)
Definition torch_diag (a : ndarray) : result ndarray :=
  match shape a with
  | [n] =>
      Ok (mkArray [n; n]
            (tabulate2 n n (fun i j => if Nat.eqb i j then get1 a i else szero)))
  | [r; c] =>
      Ok (mkArray [Nat.min r c] (map (fun i => get2 a i i) (seq 0 (Nat.min r c))))
  | _ => Raise (RuntimeError "matrix or a vector expected")
  end.

(** Sum of [f 0 .. f (n-1)]. *)
Fixpoint ssum (n : nat) (f : nat -> K) : K :=
  match n with
  | 0 => szero
  | S n' => sadd (ssum n' f) (f n')
  end.

(** [torch.mm(A, B)] *)
Definition torch_mm (a b : ndarray) : result ndarray :=
  match shape a, shape b with
  | [r; n], [n'; c] =>
      if Nat.eqb n n'
      then Ok (mkArray [r; c]
                 (tabulate2 r c (fun i j => ssum n (fun l => smul (get2 a i l) (get2 b l j)))))
      else Raise (RuntimeError "size mismatch")
  | _, _ => Raise (RuntimeError "matrices expected")
  end.

(** [F.linear(x, W, b)] on a vector [x]: [x @ W.T + b]. *)
Definition F_linear (x W : ndarray) (b : option ndarray) : result ndarray :=
  match shape x, shape W with
  | [n], [o; i] =>
      if Nat.eqb n i
      then
        let y p := ssum n (fun j => smul (get1 x j) (get2 W p j)) in
        match b with
        | None => Ok (mkArray [o] (map y (seq 0 o)))
        | Some bv =>
            match shape bv with
            | [ob] =>
                if Nat.eqb ob o
                then Ok (mkArray [o] (map (fun p => sadd (y p) (get1 bv p)) (seq 0 o)))
                else Raise (RuntimeError "bias size mismatch")
            | _ => Raise (RuntimeError "bias size mismatch")
            end
        end
      else Raise (RuntimeError "size mismatch")
  | _, _ => Raise (RuntimeError "size mismatch")
  end.

(** ** Modules: [torch.nn.Conv2d], [torch.nn.Linear], [torch.nn.Sequential] *)

Record conv2d := mkConv2d {
  in_channels : nat;
  out_channels : nat;
  kernel_size : nat * nat;
  stride : nat * nat;
  padding : nat * nat;
  dilation : nat * nat;
  groups : nat;
  conv_weight : ndarray;
  conv_bias : option ndarray }.

Record linear := mkLinear {
  in_features : nat;
  out_features : nat;
  linear_weight : ndarray;
  linear_bias : option ndarray }.

Inductive module :=
| Conv2d (c : conv2d)
| Linear (l : linear)
| Sequential (children : list loc).

(** What [print] is given. *)
Inductive pyval :=
| PyModule (m : module)
| PyInt (n : nat)
| PyInts (l : list nat)
| PyStr (s : string)
| PyType (s : string).

(** ** The numeric libraries *)

Context {rng : Type}.

Record library := {
  (** [tensorly.decomposition.parafac(X, rank=, init=)]. [random_state] is
      not passed: the routine draws from a random source of its own, which
      the caller neither seeds nor reads. The last argument and the second
      result are the state of that source before and after the call. *)
  parafac : ndarray -> nat -> init_method -> rng -> result (list ndarray) * rng;
  (** [tensorly.decomposition.partial_tucker(X, modes=, ranks=, init=)],
      with the same random source *)
  partial_tucker : ndarray -> list nat -> list nat -> init_method -> rng ->
                   result (ndarray * list ndarray) * rng;
  (** [tl.base.unfold(X, mode)] *)
  unfold : ndarray -> nat -> result ndarray;
  (** [VBMF.EVBMF(Y)]: [(U, diag(d), V, post)] *)
  EVBMF : ndarray -> result (ndarray * ndarray * ndarray * list (string * ndarray));
  (** [X.svd()]: [(U, S, V)] *)
  svd : ndarray -> result (ndarray * ndarray * ndarray);
  (** [np.float32] on one value *)
  float32 : K -> K;
  (** the random initial value of a parameter of a given shape, drawn from
      torch's default generator when a module is constructed *)
  init_parameter : list nat -> rng -> ndarray * rng;
  (** [F.conv2d] with the hyper-parameters, weight and bias of a module *)
  F_conv2d : conv2d -> ndarray -> result ndarray }.

Variable lib : library.

Inductive libcall :=
| CallParafac (X : ndarray) (rank : nat) (init : init_method)
| CallPartialTucker (X : ndarray) (modes ranks : list nat) (init : init_method)
| CallUnfold (X : ndarray) (mode : nat)
| CallEVBMF (Y : ndarray)
| CallSvd (X : ndarray).

(** One entry of the log of library calls: the call, and the exception it
    raised if it did not return. *)
Record event := mkEvent { call : libcall; raised : option exn }.

Definition outcome {A} (r : result A) : option exn :=
  match r with Ok _ => None | Raise e => Some e end.

(** ** The world and the monad of effects

    [lib_random] is the state of the random source the decomposition
    routines draw from. It is not NumPy's global generator: with
    [random_state] left out tensorly seeds a generator per call, so that
    nothing the program or its caller does fixes this state. [torch_random]
    is torch's default generator, from which the constructors of modules
    draw the initial values of parameters. *)

Record world := mkWorld {
  heap : gmap loc module;
  next_id : loc;
  lib_random : rng;
  torch_random : rng;
  stdout : list (list pyval);
  calls : list event }.

Abbreviation Py := (M world).

Definition with_heap (w : world) (h : gmap loc module) (n : loc) : world :=
  mkWorld h n (lib_random w) (torch_random w) (stdout w) (calls w).

(** Reading the object a reference points to. References are only obtained
    from the caller or from a constructor, so this cannot fail in Python; the
    model allows dangling references and raises on them. *)
Definition get_module (l : loc) : Py module :=
  fun w =>
    match heap w !! l with
    | Some m => (Ok m, w)
    | None => (Raise (RuntimeError "dangling reference"), w)
    end.

Definition set_module (l : loc) (m : module) : Py unit :=
  fun w => (Ok tt, with_heap w (<[l := m]> (heap w)) (next_id w)).

Definition alloc (m : module) : Py loc :=
  fun w => (Ok (next_id w), with_heap w (<[next_id w := m]> (heap w)) (S (next_id w))).

(** [print(...)] *)
Definition print (args : list pyval) : Py unit :=
  fun w =>
    (Ok tt, mkWorld (heap w) (next_id w) (lib_random w) (torch_random w)
                    (stdout w ++ [args]) (calls w)).

Definition log_call {A} (c : libcall) (r : result A) (w : world) (g : rng) : world :=
  mkWorld (heap w) (next_id w) g (torch_random w) (stdout w)
          (calls w ++ [mkEvent c (outcome r)]).

Definition call_parafac (X : ndarray) (rank : nat) (init : init_method)
  : Py (list ndarray) :=
  fun w =>
    let r := parafac lib X rank init (lib_random w) in
    (fst r, log_call (CallParafac X rank init) (fst r) w (snd r)).

Definition call_partial_tucker (X : ndarray) (modes ranks : list nat)
  (init : init_method) : Py (ndarray * list ndarray) :=
  fun w =>
    let r := partial_tucker lib X modes ranks init (lib_random w) in
    (fst r, log_call (CallPartialTucker X modes ranks init) (fst r) w (snd r)).

Definition call_unfold (X : ndarray) (mode : nat) : Py ndarray :=
  fun w =>
    let r := unfold lib X mode in
    (r, log_call (CallUnfold X mode) r w (lib_random w)).

Definition call_EVBMF (Y : ndarray)
  : Py (ndarray * ndarray * ndarray * list (string * ndarray)) :=
  fun w =>
    let r := EVBMF lib Y in
    (r, log_call (CallEVBMF Y) r w (lib_random w)).

Definition call_svd (X : ndarray) : Py (ndarray * ndarray * ndarray) :=
  fun w =>
    let r := svd lib X in
    (r, log_call (CallSvd X) r w (lib_random w)).

(** [np.float32(a)] *)
Definition np_float32 (a : ndarray) : ndarray :=
  mkArray (shape a) (map (float32 lib) (data a)).

(** A fresh parameter tensor with its random initial value. *)
Definition new_parameter (s : list nat) : Py ndarray :=
  fun w =>
    let r := init_parameter lib s (torch_random w) in
    (Ok (fst r),
     mkWorld (heap w) (next_id w) (lib_random w) (snd r) (stdout w) (calls w)).

(** *** Attributes *)

Definition no_attribute {A} (cls attr : string) : result A :=
  Raise (AttributeError ("'" ++ cls ++ "' object has no attribute '" ++ attr ++ "'")).

Definition module_weight (m : module) : result ndarray :=
  match m with
  | Conv2d c => Ok (conv_weight c)
  | Linear l => Ok (linear_weight l)
  | Sequential _ => no_attribute "Sequential" "weight"
  end.

Definition module_bias (m : module) : result (option ndarray) :=
  match m with
  | Conv2d c => Ok (conv_bias c)
  | Linear l => Ok (linear_bias l)
  | Sequential _ => no_attribute "Sequential" "bias"
  end.

(** [b.data] where [b] is a module's [bias] attribute: [None] when the
    module was built without a bias. *)
Definition bias_data (b : option ndarray) : result ndarray :=
  match b with
  | Some t => Ok t
  | None => no_attribute "NoneType" "data"
  end.

Definition module_conv (attr : string) (m : module) : result conv2d :=
  match m with
  | Conv2d c => Ok c
  | Linear _ => no_attribute "Linear" attr
  | Sequential _ => no_attribute "Sequential" attr
  end.

(** [layer.weight.data] and [layer.weight.data.numpy()] *)
Definition weight_data (layer : loc) : Py ndarray :=
  m <- get_module layer ;; lift (module_weight m).

(** [layer.bias.data] *)
Definition layer_bias_data (layer : loc) : Py ndarray :=
  m <- get_module layer ;;
  b <- lift (module_bias m) ;;
  lift (bias_data b).

Definition layer_stride (layer : loc) : Py (nat * nat) :=
  m <- get_module layer ;; c <- lift (module_conv "stride" m) ;; ret (stride c).

Definition layer_padding (layer : loc) : Py (nat * nat) :=
  m <- get_module layer ;; c <- lift (module_conv "padding" m) ;; ret (padding c).

Definition layer_dilation (layer : loc) : Py (nat * nat) :=
  m <- get_module layer ;; c <- lift (module_conv "dilation" m) ;; ret (dilation c).

Definition layer_kernel_size (layer : loc) : Py (nat * nat) :=
  m <- get_module layer ;; c <- lift (module_conv "kernel_size" m) ;; ret (kernel_size c).

Definition with_weight (m : module) (t : ndarray) : result module :=
  match m with
  | Conv2d c =>
      Ok (Conv2d (mkConv2d (in_channels c) (out_channels c) (kernel_size c)
                    (stride c) (padding c) (dilation c) (groups c) t (conv_bias c)))
  | Linear l =>
      Ok (Linear (mkLinear (in_features l) (out_features l) t (linear_bias l)))
  | Sequential _ => no_attribute "Sequential" "weight"
  end.

Definition with_bias (m : module) (t : ndarray) : result module :=
  match m with
  | Conv2d c =>
      match conv_bias c with
      | Some _ =>
          Ok (Conv2d (mkConv2d (in_channels c) (out_channels c) (kernel_size c)
                        (stride c) (padding c) (dilation c) (groups c)
                        (conv_weight c) (Some t)))
      | None => no_attribute "NoneType" "data"
      end
  | Linear l =>
      match linear_bias l with
      | Some _ =>
          Ok (Linear (mkLinear (in_features l) (out_features l) (linear_weight l) (Some t)))
      | None => no_attribute "NoneType" "data"
      end
  | Sequential _ => no_attribute "Sequential" "bias"
  end.

(** [obj.weight.data = t]: no shape is checked. *)
Definition set_weight_data (obj : loc) (t : ndarray) : Py unit :=
  m <- get_module obj ;; m' <- lift (with_weight m t) ;; set_module obj m'.

(** [obj.bias.data = t] *)
Definition set_bias_data (obj : loc) (t : ndarray) : Py unit :=
  m <- get_module obj ;; m' <- lift (with_bias m t) ;; set_module obj m'.

(** *** Constructors *)

(** An [int] given where torch expects a pair. *)
Definition pair_of (n : nat) : nat * nat := (n, n).

(** [torch.nn.Conv2d(in_channels, out_channels, kernel_size, stride, padding,
    dilation, groups, bias)]: the arguments are checked, the weight of shape
    [(out_channels, in_channels // groups, kh, kw)] and, when asked for, the
    bias of shape [(out_channels,)] get random initial values. *)
Definition new_Conv2d (in_c out_c : nat) (ks st pd dl : nat * nat) (g : nat)
  (bias : bool) : Py loc :=
  if Nat.eqb g 0 then raise (ValueError "groups must be a positive integer")
  else if negb (Nat.eqb (in_c mod g) 0)
  then raise (ValueError "in_channels must be divisible by groups")
  else if negb (Nat.eqb (out_c mod g) 0)
  then raise (ValueError "out_channels must be divisible by groups")
  else
    wt <- new_parameter [out_c; in_c / g; fst ks; snd ks] ;;
    b <- (if bias then (t <- new_parameter [out_c] ;; ret (Some t)) else ret None) ;;
    alloc (Conv2d (mkConv2d in_c out_c ks st pd dl g wt b)).

(** [torch.nn.Linear(in_features, out_features, bias)] *)
Definition new_Linear (in_f out_f : nat) (bias : bool) : Py loc :=
  wt <- new_parameter [out_f; in_f] ;;
  b <- (if bias then (t <- new_parameter [out_f] ;; ret (Some t)) else ret None) ;;
  alloc (Linear (mkLinear in_f out_f wt b)).

(** [nn.Sequential] applied to the list of new layers *)
Definition new_Sequential (layers : list loc) : Py loc :=
  alloc (Sequential layers).

(** *** Unpacking *)

(** [str(n)] for a natural number. *)
Definition decimal (n : nat) : string :=
  NilZero.string_of_uint (Nat.to_uint n).

(** The exception of an unpacking into [n] targets of a sequence of [got]
    values, [got] other than [n]. *)
Definition unpack_error (n got : nat) : exn :=
  ValueError
    (if (got <? n)%nat
     then "not enough values to unpack (expected " ++ decimal n ++ ", got "
          ++ decimal got ++ ")"
     else "too many values to unpack (expected " ++ decimal n ++ ")")%string.

(** [a, b, c, d = xs] *)
Definition unpack4 (xs : list ndarray) : result (ndarray * ndarray * ndarray * ndarray) :=
  match xs with
  | [a; b; c; d] => Ok (a, b, c, d)
  | _ => Raise (unpack_error 4 (length xs))
  end.

(** [[a, b] = xs] *)
Definition unpack2 (xs : list ndarray) : result (ndarray * ndarray) :=
  match xs with
  | [a; b] => Ok (a, b)
  | _ => Raise (unpack_error 2 (length xs))
  end.

(** ** The functions of [decompositions.py] *)

(** [np.expand_dims(np.expand_dims(a, axis = ax1), axis = ax2)] *)
Definition expand_dims2 (a : ndarray) (ax1 ax2 : Z) : result ndarray :=
  match np_expand_dims a ax1 with
  | Ok a1 => np_expand_dims a1 ax2
  | Raise e => Raise e
  end.

(** [np.expand_dims(np.expand_dims(a.transpose(1, 0), axis = ax1), axis = ax2)] *)
Definition transpose_expand_dims2 (a : ndarray) (ax1 ax2 : Z) : result ndarray :=
  match np_transpose_1_0 a with
  | Ok a' => expand_dims2 a' ax1 ax2
  | Raise e => Raise e
  end.

Definition cp_decomposition_conv_layer (layer : loc) (rank : nat) : Py loc :=
  m <- get_module layer ;;
  print [PyModule m; PyInt rank] ;;
  X <- weight_data layer ;;
  size <- lift (max_shape X) ;;
  factors <- (if 256 <=? size
              then print [PyStr "Init random"] ;; call_parafac X rank InitRandom
              else call_parafac X rank InitSvd) ;;
  f4 <- lift (unpack4 factors) ;;
  let '(last, first, vertical, horizontal) := f4 in

  first0 <- lift (shape_at first 0) ;;
  first1 <- lift (shape_at first 1) ;;
  st <- layer_stride layer ;;
  dl <- layer_dilation layer ;;
  pointwise_s_to_r_layer <-
    new_Conv2d first0 first1 (pair_of 1) st (pair_of 0) dl 1 false ;;

  vertical1 <- lift (shape_at vertical 1) ;;
  vertical0 <- lift (shape_at vertical 0) ;;
  st <- layer_stride layer ;;
  pd <- layer_padding layer ;;
  dl <- layer_dilation layer ;;
  depthwise_vertical_layer <-
    new_Conv2d vertical1 vertical1 (vertical0, 1) st (fst pd, 0) dl vertical1 false ;;

  horizontal1 <- lift (shape_at horizontal 1) ;;
  horizontal0 <- lift (shape_at horizontal 0) ;;
  st <- layer_stride layer ;;
  pd <- layer_padding layer ;;
  dl <- layer_dilation layer ;;
  depthwise_horizontal_layer <-
    new_Conv2d horizontal1 horizontal1 (1, horizontal0) st (0, fst pd) dl horizontal1 false ;;

  last1 <- lift (shape_at last 1) ;;
  last0 <- lift (shape_at last 0) ;;
  st <- layer_stride layer ;;
  dl <- layer_dilation layer ;;
  pointwise_r_to_t_layer <-
    new_Conv2d last1 last0 (pair_of 1) st (pair_of 0) dl 1 true ;;
  b <- layer_bias_data layer ;;
  set_bias_data pointwise_r_to_t_layer b ;;

  depthwise_vertical_layer_weights <- lift (transpose_expand_dims2 vertical 1 (-1)) ;;
  depthwise_horizontal_layer_weights <- lift (transpose_expand_dims2 horizontal 1 1) ;;
  pointwise_s_to_r_layer_weights <- lift (transpose_expand_dims2 first (-1) (-1)) ;;
  pointwise_r_to_t_layer_weights <- lift (expand_dims2 last (-1) (-1)) ;;

  set_weight_data depthwise_horizontal_layer
    (from_numpy (np_float32 depthwise_horizontal_layer_weights)) ;;
  set_weight_data depthwise_vertical_layer
    (from_numpy (np_float32 depthwise_vertical_layer_weights)) ;;
  set_weight_data pointwise_s_to_r_layer
    (from_numpy (np_float32 pointwise_s_to_r_layer_weights)) ;;
  set_weight_data pointwise_r_to_t_layer
    (from_numpy (np_float32 pointwise_r_to_t_layer_weights)) ;;

  new_Sequential [pointwise_s_to_r_layer; depthwise_vertical_layer;
                  depthwise_horizontal_layer; pointwise_r_to_t_layer].

Definition estimate_ranks_tucker (layer : loc) : Py (list nat) :=
  weights <- weight_data layer ;;
  print [PyType "numpy.ndarray"] ;;
  unfold_0 <- call_unfold weights 0 ;;
  unfold_1 <- call_unfold weights 1 ;;
  r0 <- call_EVBMF unfold_0 ;;
  let '(_, diag_0, _, _) := r0 in
  r1 <- call_EVBMF unfold_1 ;;
  let '(_, diag_1, _, _) := r1 in
  d0 <- lift (shape_at diag_0 0) ;;
  d1 <- lift (shape_at diag_1 1) ;;
  ret [d0; d1].

Definition tucker_decomposition_conv_layer (layer : loc) : Py loc :=
  ranks <- estimate_ranks_tucker layer ;;
  m <- get_module layer ;;
  print [PyModule m; PyStr "VBMF Estimated ranks"; PyInts ranks] ;;
  X <- weight_data layer ;;
  r <- call_partial_tucker X [0; 1] ranks InitSvd ;;
  let '(core, factors) := r in
  f2 <- lift (unpack2 factors) ;;
  let '(last, first) := f2 in

  first0 <- lift (shape_at first 0) ;;
  first1 <- lift (shape_at first 1) ;;
  dl <- layer_dilation layer ;;
  first_layer <-
    new_Conv2d first0 first1 (pair_of 1) (pair_of 1) (pair_of 0) dl 1 false ;;

  core1 <- lift (shape_at core 1) ;;
  core0 <- lift (shape_at core 0) ;;
  ks <- layer_kernel_size layer ;;
  st <- layer_stride layer ;;
  pd <- layer_padding layer ;;
  dl <- layer_dilation layer ;;
  core_layer <- new_Conv2d core1 core0 ks st pd dl 1 false ;;

  last1 <- lift (shape_at last 1) ;;
  last0 <- lift (shape_at last 0) ;;
  dl <- layer_dilation layer ;;
  last_layer <-
    new_Conv2d last1 last0 (pair_of 1) (pair_of 1) (pair_of 0) dl 1 true ;;

  b <- layer_bias_data layer ;;
  set_bias_data last_layer b ;;

  first <- lift (np_transpose_1_0 first) ;;
  fw <- lift (expand_dims2 (np_copy first) (-1) (-1)) ;;
  set_weight_data first_layer (from_numpy (np_float32 fw)) ;;
  lw <- lift (expand_dims2 (np_copy last) (-1) (-1)) ;;
  set_weight_data last_layer (from_numpy (np_float32 lw)) ;;
  set_weight_data core_layer (from_numpy (np_float32 (np_copy core))) ;;

  new_Sequential [first_layer; core_layer; last_layer].

Definition estimate_ranks_svd (layer : loc) : Py nat :=
  weights <- weight_data layer ;;
  print [PyType "numpy.ndarray"] ;;
  r <- call_EVBMF weights ;;
  let '(_, diag, _, _) := r in
  lift (shape_at diag 0).

Definition svd_decomposition_dense_layer (layer : loc) : Py loc :=
  rank <- estimate_ranks_svd layer ;;
  m <- get_module layer ;;
  print [PyModule m; PyStr "SVD estimated rank"; PyInt rank] ;;
  X <- weight_data layer ;;
  usv <- call_svd X ;;
  let '(U, S_, V) := usv in

  Uk <- lift (slice_cols U rank) ;;
  Sk <- lift (slice_rows S_ rank) ;;
  Vk <- lift (slice_cols V rank) ;;

  x1 <- lift (shape_at X 1) ;;
  V_layer <- new_Linear rank x1 false ;;
  x0 <- lift (shape_at X 0) ;;
  U_layer <- new_Linear x0 rank true ;;

  vt <- lift (torch_t Vk) ;;
  set_weight_data V_layer vt ;;
  dg <- lift (torch_diag Sk) ;;
  us <- lift (torch_mm Uk dg) ;;
  set_weight_data U_layer us ;;
  b <- layer_bias_data layer ;;
  set_bias_data U_layer b ;;

  new_Sequential [V_layer; U_layer].

(** ** Running a container: [Sequential.forward] and [Linear.forward] *)

Fixpoint forward (depth : nat) (h : gmap loc module) (l : loc) (x : ndarray)
  : result ndarray :=
  match depth with
  | 0 => Raise (RuntimeError "maximum recursion depth exceeded")
  | S d =>
      match h !! l with
      | None => Raise (RuntimeError "dangling reference")
      | Some (Linear lin) => F_linear x (linear_weight lin) (linear_bias lin)
      | Some (Conv2d c) => F_conv2d lib c x
      | Some (Sequential cs) =>
          fold_left
            (fun acc c =>
               match acc with
               | Ok v => forward d h c v
               | Raise e => Raise e
               end)
            cs (Ok x)
      end
  end.

(** The modules a container holds, in order. *)
Definition children_of (h : gmap loc module) (l : loc) : option (list module) :=
  match h !! l with
  | Some (Sequential cs) => mapM (fun c => h !! c) cs
  | _ => None
  end.

(** ** Observations *)

(** The three transformations, to speak of them together. *)
Inductive transformation :=
| CP (rank : nat)
| Tucker
| SVD.

Definition run_transformation (t : transformation) (layer : loc) : Py loc :=
  match t with
  | CP rank => cp_decomposition_conv_layer layer rank
  | Tucker => tucker_decomposition_conv_layer layer
  | SVD => svd_decomposition_dense_layer layer
  end.

(** The initialisation [cp_decomposition_conv_layer] asks [parafac] for. *)
Definition cp_init (X : ndarray) : init_method :=
  if 256 <=? list_max (shape X) then InitRandom else InitSvd.

(** The hyper-parameters of a convolution: input and output channels, kernel
    size, stride, padding, dilation, groups. *)
Definition hyper (c : conv2d)
  : nat * nat * (nat * nat) * (nat * nat) * (nat * nat) * (nat * nat) * nat :=
  (in_channels c, out_channels c, kernel_size c, stride c, padding c,
   dilation c, groups c).

(** What the caller of a transformation gets: the modules of the returned
    container, or the exception. *)
Definition observe (r : result loc * world) : result (option (list module)) :=
  match fst r with
  | Ok ret => Ok (children_of (heap (snd r)) ret)
  | Raise e => Raise e
  end.

(** The library calls a run added to the log. *)
Definition new_calls (w w' : world) : list event :=
  drop (length (calls w)) (calls w').

(** ** The truncated SVD as the specification words it

    [U_k Sigma_k V_k^T]: the first [k] columns of [U] and [V], the first [k]
    singular values on a diagonal. *)
Definition truncated_svd (U S_ V : ndarray) (k : nat) : result ndarray :=
  match slice_cols U k, slice_rows S_ k, slice_cols V k with
  | Ok Uk, Ok Sk, Ok Vk =>
      match torch_diag Sk with
      | Ok Sigma =>
          match torch_mm Uk Sigma, torch_t Vk with
          | Ok US, Ok Vt => torch_mm US Vt
          | Raise e, _ | _, Raise e => Raise e
          end
      | Raise e => Raise e
      end
  | Raise e, _, _ | _, Raise e, _ | _, _, Raise e => Raise e
  end.

(** ** Rank estimation as the specification words it

    Unfold the weight along modes 0 and 1, apply EVBMF to each unfolding,
    return the dimensions of the two diagonal matrices. *)
Definition estimate_ranks_by_unfolding (layer : loc) : Py (list nat) :=
  weights <- weight_data layer ;;
  unfold_0 <- call_unfold weights 0 ;;
  unfold_1 <- call_unfold weights 1 ;;
  r0 <- call_EVBMF unfold_0 ;;
  r1 <- call_EVBMF unfold_1 ;;
  d0 <- lift (shape_at (snd (fst (fst r0))) 0) ;;
  d1 <- lift (shape_at (snd (fst (fst r1))) 0) ;;
  ret [d0; d1].

(** ** Properties of a returned container

    Each is a predicate on the heap a call ended in and the location it
    returned. *)

(** The chain [cp_decomposition_conv_layer] builds for a layer [c] and a
    rank: pointwise, depthwise vertical, depthwise horizontal, pointwise. *)
Definition has_cp_structure (c : conv2d) (rank : nat)
  (h' : gmap loc module) (ret : loc) : Prop :=
  exists c1 c2 c3 c4,
    children_of h' ret = Some [Conv2d c1; Conv2d c2; Conv2d c3; Conv2d c4] /\
    hyper c1 = (in_channels c / groups c, rank, (1, 1), stride c, (0, 0),
                dilation c, 1) /\
    hyper c2 = (rank, rank, (fst (kernel_size c), 1), stride c,
                (fst (padding c), 0), dilation c, rank) /\
    hyper c3 = (rank, rank, (1, snd (kernel_size c)), stride c,
                (0, fst (padding c)), dilation c, rank) /\
    hyper c4 = (rank, out_channels c, (1, 1), stride c, (0, 0), dilation c, 1) /\
    (shape (conv_weight c1) = [rank; in_channels c / groups c; 1; 1] /\
     shape (conv_weight c2) = [rank; 1; fst (kernel_size c); 1] /\
     shape (conv_weight c3) = [rank; 1; 1; snd (kernel_size c)] /\
     shape (conv_weight c4) = [out_channels c; rank; 1; 1]) /\
    (conv_bias c1 = None /\ conv_bias c2 = None /\ conv_bias c3 = None /\
     conv_bias c4 = conv_bias c).

(** The chain [tucker_decomposition_conv_layer] builds from a core and two
    factors at ranks [r0] (mode 0) and [r1] (mode 1): pointwise, full
    convolution, pointwise. *)
Definition has_tucker_structure (c : conv2d) (r0 r1 : nat)
  (core last first : ndarray) (h' : gmap loc module) (ret : loc) : Prop :=
  exists c1 c2 c3,
    children_of h' ret = Some [Conv2d c1; Conv2d c2; Conv2d c3] /\
    hyper c1 = (in_channels c / groups c, r1, (1, 1), (1, 1), (0, 0),
                dilation c, 1) /\
    hyper c2 = (r1, r0, kernel_size c, stride c, padding c, dilation c, 1) /\
    hyper c3 = (r0, out_channels c, (1, 1), (1, 1), (0, 0), dilation c, 1) /\
    (conv_weight c1
     = np_float32
         (mkArray [r1; in_channels c / groups c; 1; 1]
            (tabulate2 r1 (in_channels c / groups c) (fun i j => get2 first j i))) /\
     conv_weight c2 = np_float32 core /\
     conv_weight c3
     = np_float32 (mkArray [out_channels c; r0; 1; 1] (data last))) /\
    (conv_bias c1 = None /\ conv_bias c2 = None /\ conv_bias c3 = conv_bias c).

(** Two linear layers that, run one after the other on a vector of [n]
    entries, compute [x |-> A x + b] for the rank-[k] truncation [A] of the
    decomposition [(U, S, V)] of [W]. *)
Definition computes_truncated_svd (W b U S_ V : ndarray) (k n : nat)
  (h' : gmap loc module) (ret : loc) : Prop :=
  exists lv lu A,
    children_of h' ret = Some [Linear lv; Linear lu] /\
    truncated_svd U S_ V k = Ok A /\
    shape A = shape W /\
    forall depth x, 2 <= depth -> shape x = [n] ->
      forward depth h' ret x = F_linear x A (Some b) /\
      exists y, F_linear x A (Some b) = Ok y /\ shape y = shape b.

(** Only the last module of the container has a bias, and it is [b]. *)
Definition only_last_has_bias (b : ndarray) (h' : gmap loc module) (ret : loc)
  : Prop :=
  exists earlier last_layer,
    children_of h' ret = Some (earlier ++ [last_layer]) /\
    Forall (fun x => module_bias x = Ok None) earlier /\
    module_bias last_layer = Ok (Some b).

(** Strides and paddings of the CP chain built for [c]. *)
Definition has_cp_strides (c : conv2d) (h' : gmap loc module) (ret : loc)
  : Prop :=
  exists c1 c2 c3 c4,
    children_of h' ret = Some [Conv2d c1; Conv2d c2; Conv2d c3; Conv2d c4] /\
    (kernel_size c1 = (1, 1) /\ kernel_size c4 = (1, 1)) /\
    (stride c1 = stride c /\ stride c2 = stride c /\
     stride c3 = stride c /\ stride c4 = stride c) /\
    (padding c2 = (fst (padding c), 0) /\ padding c3 = (0, fst (padding c))).

(** Strides of the Tucker chain built for [c]. *)
Definition has_tucker_strides (c : conv2d) (h' : gmap loc module) (ret : loc)
  : Prop :=
  exists c1 c2 c3,
    children_of h' ret = Some [Conv2d c1; Conv2d c2; Conv2d c3] /\
    (kernel_size c1 = (1, 1) /\ kernel_size c3 = (1, 1)) /\
    (stride c1 = (1, 1) /\ stride c2 = stride c /\ stride c3 = (1, 1)).

(** ** Properties of a run *)

(** A library call that raised is the last one the run made, its exception
    is the run's outcome, and the heap is as it was. *)
Definition failure_propagates {A} (w : world) (r : result A) (w' : world)
  : Prop :=
  forall i ev e,
    new_calls w w' !! i = Some ev -> raised ev = Some e ->
    r = Raise e /\ heap w' = heap w /\ last (new_calls w w') = Some ev.

(** ** Assumptions on the libraries *)

(** The diagonal factor EVBMF returns is square. *)
Definition square_diag : Prop :=
  forall Y U d V p, EVBMF lib Y = Ok (U, d, V, p) -> shape_at d 1 = shape_at d 0.

End Model.

(** ** A small instance of the libraries, for running the model

    Integers as scalars, a counter as random generator, and stand-ins for the
    numeric routines that return tensors of the documented shapes: factor [i]
    of [parafac(X, rank)] has shape [(X.shape[i], rank)], [partial_tucker]
    over modes 0 and 1 returns a core of shape [(r0, r1, kh, kw)] and factors
    of shapes [(T, r0)] and [(S, r1)], [EVBMF] wants a matrix and returns a
    square diagonal factor, [svd] returns [U], [S], [V] of shapes
    [(m, r)], [(r,)], [(n, r)] with [r = min(m, n)]. Random initialisation
    reads and advances the generator. *)

Module Demo.

Definition Zs : scalar_ring :=
  {| scalar := Z; szero := 0%Z; sone := 1%Z; sadd := Z.add; smul := Z.mul;
     ssub := Z.sub; sopp := Z.opp; scalar_ring_theory := Zth |}.

Definition arr : Type := @ndarray Zs.

Definition size_of (s : list nat) : nat := fold_right Nat.mul 1 s.

Definition fill (s : list nat) (v : Z) : arr :=
  mkArray (K := Zs) s (repeat v (size_of s)).

(** The identity-like [r] x [c] matrix. *)
Definition eye (r c : nat) : arr :=
  mkArray [r; c] (tabulate2 (K := Zs) r c (fun i j => if Nat.eqb i j then 1%Z else 0%Z)).

Definition demo_parafac (X : arr) (rank : nat) (init : init_method) (g : nat)
  : result (list arr) * nat :=
  if list_max (shape X) <? rank
  then (Raise (LibraryError "rank exceeds the tensor's dimensions"), g)
  else
    match init with
    | InitSvd => (Ok (map (fun d => fill [d; rank] 1%Z) (shape X)), g)
    | InitRandom => (Ok (map (fun d => fill [d; rank] (Z.of_nat g)) (shape X)), S g)
    end.

Definition demo_partial_tucker (X : arr) (modes ranks : list nat)
  (init : init_method) (g : nat) : result (arr * list arr) * nat :=
  match shape X, modes, ranks with
  | [t; s; kh; kw], [0; 1], [r0; r1] =>
      if (t <? r0) || (s <? r1)
      then (Raise (LibraryError "rank exceeds the tensor's dimensions"), g)
      else
        match init with
        | InitSvd => (Ok (fill [r0; r1; kh; kw] 1%Z, [eye t r0; eye s r1]), g)
        | InitRandom =>
            (Ok (fill [r0; r1; kh; kw] (Z.of_nat g), [eye t r0; eye s r1]), S g)
        end
  | _, _, _ => (Raise (LibraryError "unsupported decomposition"), g)
  end.

(** The multi-index of position [q] in a row-major array of shape [dims]. *)
Fixpoint unravel (dims : list nat) (q : nat) : list nat :=
  match dims with
  | [] => []
  | d :: rest => (q / size_of rest) mod d :: unravel rest q
  end.

(** The position of a multi-index in a row-major array of shape [dims]. *)
Fixpoint ravel (dims idx : list nat) : nat :=
  match dims, idx with
  | _ :: rest, i :: idx' => i * size_of rest + ravel rest idx'
  | _, _ => 0
  end.

(** [tl.base.unfold(X, mode)]: axis [mode] first, the others flattened in
    their order. *)
Definition demo_unfold (X : arr) (mode : nat) : result arr :=
  match nth_error (shape X) mode with
  | None => Raise (IndexError "mode out of range")
  | Some d =>
      let others := take mode (shape X) ++ drop (S mode) (shape X) in
      Ok (mkArray (K := Zs) [d; size_of others]
            (tabulate2 (K := Zs) d (size_of others)
               (fun i q =>
                  let idx := unravel others q in
                  nth (ravel (shape X) (take mode idx ++ i :: drop mode idx))
                      (data X) 0%Z)))
  end.

Definition demo_EVBMF (Y : arr)
  : result (arr * arr * arr * list (string * arr)) :=
  match shape Y with
  | [l; m] =>
      let k := Nat.min l m in
      Ok (eye l k, eye k k, eye m k, [])
  | _ => Raise (ValueError "not enough values to unpack")
  end.

Definition demo_svd (X : arr) : result (arr * arr * arr) :=
  match shape X with
  | [m; n] =>
      let r := Nat.min m n in
      Ok (eye m r, fill [r] 1%Z, eye n r)
  | _ => Raise (RuntimeError "svd expects a matrix")
  end.

Definition demo_lib : @library Zs nat :=
  {| parafac := demo_parafac;
     partial_tucker := demo_partial_tucker;
     unfold := demo_unfold;
     EVBMF := demo_EVBMF;
     svd := demo_svd;
     float32 := fun v => v;
     init_parameter := fun s g => (fill s (Z.of_nat g), S g);
     F_conv2d := fun _ _ => Raise (RuntimeError "convolution is not run here") |}.

(** A world holding one module, at location 0. *)
Definition world_with (m : @module Zs) (g : nat) : @world Zs nat :=
  mkWorld (<[0 := m]> ∅) 1 g 0 [] [].

(** Another world holding the module, elsewhere and with other generator
    states, output and log. *)
Definition world_elsewhere (m : @module Zs) : @world Zs nat :=
  mkWorld (<[3 := m]> ∅) 5 7 9 [[PyStr "earlier output"]] [].

(** A 3x3 convolution from 2 to 3 channels, stride 2, padding 1, with bias. *)
Definition conv_c : @conv2d Zs :=
  mkConv2d 2 3 (3, 3) (2, 2) (1, 1) (1, 1) 1
    (fill [3; 2; 3; 3] 5%Z) (Some (fill [3] 7%Z)).

Definition conv_layer : @module Zs := Conv2d conv_c.

(** The same layer built with [bias = False]. *)
Definition conv_c_no_bias : @conv2d Zs :=
  mkConv2d 2 3 (3, 3) (2, 2) (1, 1) (1, 1) 1 (fill [3; 2; 3; 3] 5%Z) None.

Definition conv_layer_no_bias : @module Zs := Conv2d conv_c_no_bias.

(** A grouped convolution: 4 input channels in 2 groups, so that the weight
    has 2 channels in its second axis. *)
Definition grouped_c : @conv2d Zs :=
  mkConv2d 4 4 (3, 3) (1, 1) (1, 1) (1, 1) 2
    (fill [4; 2; 3; 3] 5%Z) (Some (fill [4] 7%Z)).

Definition grouped_conv_layer : @module Zs := Conv2d grouped_c.

(** A 1x1 convolution with 256 output channels. *)
Definition wide_c : @conv2d Zs :=
  mkConv2d 1 256 (1, 1) (1, 1) (0, 0) (1, 1) 1
    (fill [256; 1; 1; 1] 5%Z) (Some (fill [256] 7%Z)).

Definition wide_conv_layer : @module Zs := Conv2d wide_c.

(** A fully connected layer from 3 to 2 features. *)
Definition dense_weight : arr := mkArray (K := Zs) [2; 3] [1; 2; 3; 4; 5; 6]%Z.

Definition dense_bias : arr := mkArray (K := Zs) [2] [10; 20]%Z.

Definition dense_lin : @linear Zs := mkLinear 3 2 dense_weight (Some dense_bias).

Definition dense_layer : @module Zs := Linear dense_lin.

Definition dense_layer_no_bias : @module Zs :=
  Linear (mkLinear 3 2 dense_weight None).

(** An instance in which EVBMF keeps no component of a matrix: the diagonal
    factor is empty and the estimated rank is 0. *)
Definition demo_EVBMF_zero (Y : arr)
  : result (arr * arr * arr * list (string * arr)) :=
  match shape Y with
  | [l; m] => Ok (eye l 0, eye 0 0, eye m 0, [])
  | _ => Raise (ValueError "not enough values to unpack")
  end.

Definition zero_rank_lib : @library Zs nat :=
  {| parafac := demo_parafac;
     partial_tucker := demo_partial_tucker;
     unfold := demo_unfold;
     EVBMF := demo_EVBMF_zero;
     svd := demo_svd;
     float32 := fun v => v;
     init_parameter := fun s g => (fill s (Z.of_nat g), S g);
     F_conv2d := fun _ _ => Raise (RuntimeError "convolution is not run here") |}.

(** A container, to be passed where a layer is expected. *)
Definition container : @module Zs := Sequential [].

(** An instance in which the decomposition routines draw from their random
    source whatever initialisation is asked for. *)
Definition noisy_lib : @library Zs nat :=
  {| parafac := fun X rank _ g => demo_parafac X rank InitRandom g;
     partial_tucker :=
       fun X modes ranks _ g => demo_partial_tucker X modes ranks InitRandom g;
     unfold := demo_unfold;
     EVBMF := demo_EVBMF;
     svd := demo_svd;
     float32 := fun v => v;
     init_parameter := fun s g => (fill s (Z.of_nat g), S g);
     F_conv2d := fun _ _ => Raise (RuntimeError "convolution is not run here") |}.

End Demo.



(** * Reasoning about runs *)

(** ** Weakest preconditions *)

Lemma wp_ret {W A} (a : A) (Q : result A -> W -> Prop) w :
  Q (Ok a) w -> wp (ret a) Q w.
Proof. exact (fun H => H). Qed.

Lemma wp_raise {W A} (e : exn) (Q : result A -> W -> Prop) w :
  Q (Raise e) w -> wp (raise e) Q w.
Proof. exact (fun H => H). Qed.

Lemma wp_lift {W A} (r : result A) (Q : result A -> W -> Prop) w :
  Q r w -> wp (lift r) Q w.
Proof. exact (fun H => H). Qed.

Lemma wp_bind {W A B} (m : M W A) (f : A -> M W B) Q w :
  wp m (fun r w1 =>
          match r with
          | Ok a => wp (f a) Q w1
          | Raise e => Q (Raise e) w1
          end) w ->
  wp (bind m f) Q w.
Proof. unfold wp, bind. destruct (m w) as [[a|e] w1]; simpl; auto. Qed.

Lemma wp_run {W A} (m : M W A) (Q : result A -> W -> Prop) w :
  wp m Q w -> Q (fst (m w)) (snd (m w)).
Proof. exact (fun H => H). Qed.

Lemma wp_result {W A} (m : M W A) (Q : result A -> W -> Prop) w r w' :
  wp m Q w -> m w = (r, w') -> Q r w'.
Proof. unfold wp. intros H E. rewrite E in H. exact H. Qed.

Lemma wp_returns {W A} (m : M W A) (P : A -> W -> Prop) w :
  wp m (fun r w' => exists a, r = Ok a /\ P a w') w ->
  exists a w', m w = (Ok a, w') /\ P a w'.
Proof.
  unfold wp. destruct (m w) as [r w']. cbn. intros (a & -> & HP). eauto.
Qed.

Lemma pair_eta_fst {A B} (p : A * B) a : fst p = a -> p = (a, snd p).
Proof. destruct p. cbn. intros ->. reflexivity. Qed.

Section Primitives.

Context {K : scalar_ring} {rng : Type}.
Variable lib : @library K rng.

Implicit Types (w : @world K rng) (m : @module K) (l : loc).

Lemma wp_get_module l m (Q : result module -> world -> Prop) w :
  heap w !! l = Some m -> Q (Ok m) w -> wp (get_module l) Q w.
Proof. unfold wp, get_module. intros ->. auto. Qed.

Lemma wp_get_module_None l (Q : result (@module K) -> @world K rng -> Prop) w :
  heap w !! l = None ->
  Q (Raise (RuntimeError "dangling reference")) w -> wp (get_module l) Q w.
Proof. unfold wp, get_module. intros ->. auto. Qed.

Lemma wp_set_module l m (Q : result unit -> world -> Prop) w :
  Q (Ok tt) (with_heap w (<[l := m]> (heap w)) (next_id w)) ->
  wp (set_module l m) Q w.
Proof. exact (fun H => H). Qed.

Lemma wp_alloc m (Q : result loc -> world -> Prop) w :
  Q (Ok (next_id w)) (with_heap w (<[next_id w := m]> (heap w)) (S (next_id w))) ->
  wp (alloc m) Q w.
Proof. exact (fun H => H). Qed.

Lemma wp_print args (Q : result unit -> @world K rng -> Prop) w :
  Q (Ok tt) (mkWorld (heap w) (next_id w) (lib_random w) (torch_random w)
                     (stdout w ++ [args]) (calls w)) ->
  wp (print args) Q w.
Proof. exact (fun H => H). Qed.

Lemma wp_new_parameter s (Q : result ndarray -> world -> Prop) w :
  Q (Ok (fst (init_parameter lib s (torch_random w))))
    (mkWorld (heap w) (next_id w) (lib_random w)
             (snd (init_parameter lib s (torch_random w))) (stdout w) (calls w)) ->
  wp (new_parameter lib s) Q w.
Proof. exact (fun H => H). Qed.

Lemma wp_call_parafac X rank init (Q : result (list ndarray) -> world -> Prop) w :
  (forall r, r = parafac lib X rank init (lib_random w) ->
     Q (fst r) (log_call (CallParafac X rank init) (fst r) w (snd r))) ->
  wp (call_parafac lib X rank init) Q w.
Proof. intros H. exact (H _ eq_refl). Qed.

Lemma wp_call_partial_tucker X modes ranks init
  (Q : result (ndarray * list ndarray) -> world -> Prop) w :
  (forall r, r = partial_tucker lib X modes ranks init (lib_random w) ->
     Q (fst r) (log_call (CallPartialTucker X modes ranks init) (fst r) w (snd r))) ->
  wp (call_partial_tucker lib X modes ranks init) Q w.
Proof. intros H. exact (H _ eq_refl). Qed.

Lemma wp_call_unfold X mode (Q : result ndarray -> world -> Prop) w :
  (forall r, r = unfold lib X mode ->
     Q r (log_call (CallUnfold X mode) r w (lib_random w))) ->
  wp (call_unfold lib X mode) Q w.
Proof. intros H. exact (H _ eq_refl). Qed.

Lemma wp_call_EVBMF Y (Q : result _ -> world -> Prop) w :
  (forall r, r = EVBMF lib Y ->
     Q r (log_call (CallEVBMF Y) r w (lib_random w))) ->
  wp (call_EVBMF lib Y) Q w.
Proof. intros H. exact (H _ eq_refl). Qed.

Lemma wp_call_svd X (Q : result _ -> world -> Prop) w :
  (forall r, r = svd lib X ->
     Q r (log_call (CallSvd X) r w (lib_random w))) ->
  wp (call_svd lib X) Q w.
Proof. intros H. exact (H _ eq_refl). Qed.

Lemma children_of_intro (h : gmap loc (@module K)) ret cs ms :
  h !! ret = Some (Sequential cs) ->
  Forall2 (fun c m => h !! c = Some m) cs ms ->
  children_of h ret = Some ms.
Proof.
  intros Hret Hcs. unfold children_of. rewrite Hret.
  apply mapM_Some. exact Hcs.
Qed.

End Primitives.

(** ** Tensor operations on operands of known shape *)

Section Tensors.

Context {K : scalar_ring}.
Implicit Types (a b x : @ndarray K).

Add Ring K_ring : (scalar_ring_theory K).

Lemma shape_at_0 a d rest : shape a = d :: rest -> shape_at a 0 = Ok d.
Proof. unfold shape_at. intros ->. reflexivity. Qed.

Lemma shape_at_1 a d0 d rest :
  shape a = d0 :: d :: rest -> shape_at a 1 = Ok d.
Proof. unfold shape_at. intros ->. reflexivity. Qed.

Lemma max_shape_cons a d rest :
  shape a = d :: rest -> max_shape a = Ok (list_max (shape a)).
Proof. unfold max_shape. intros ->. reflexivity. Qed.

Lemma np_transpose_1_0_matrix a r c :
  shape a = [r; c] ->
  np_transpose_1_0 a = Ok (mkArray [c; r] (tabulate2 c r (fun i j => get2 a j i))).
Proof. unfold np_transpose_1_0. intros ->. reflexivity. Qed.

Lemma expand_dims2_matrix a r c :
  shape a = [r; c] ->
  expand_dims2 a (-1) (-1) = Ok (mkArray [r; c; 1; 1] (data a)).
Proof. intros Hs. unfold expand_dims2, np_expand_dims. rewrite Hs. reflexivity. Qed.

Lemma transpose_expand_dims2_1_m1 a r c :
  shape a = [r; c] ->
  transpose_expand_dims2 a 1 (-1)
  = Ok (mkArray [c; 1; r; 1] (tabulate2 c r (fun i j => get2 a j i))).
Proof.
  intros Hs. unfold transpose_expand_dims2, np_transpose_1_0. rewrite Hs.
  reflexivity.
Qed.

Lemma transpose_expand_dims2_1_1 a r c :
  shape a = [r; c] ->
  transpose_expand_dims2 a 1 1
  = Ok (mkArray [c; 1; 1; r] (tabulate2 c r (fun i j => get2 a j i))).
Proof.
  intros Hs. unfold transpose_expand_dims2, np_transpose_1_0. rewrite Hs.
  reflexivity.
Qed.

Lemma transpose_expand_dims2_m1_m1 a r c :
  shape a = [r; c] ->
  transpose_expand_dims2 a (-1) (-1)
  = Ok (mkArray [c; r; 1; 1] (tabulate2 c r (fun i j => get2 a j i))).
Proof.
  intros Hs. unfold transpose_expand_dims2, np_transpose_1_0. rewrite Hs.
  reflexivity.
Qed.

Lemma slice_cols_matrix a r c k :
  shape a = [r; c] ->
  slice_cols a k = Ok (mkArray [r; Nat.min k c] (tabulate2 r (Nat.min k c) (get2 a))).
Proof. unfold slice_cols. intros ->. reflexivity. Qed.

Lemma slice_rows_vector a n k :
  shape a = [n] ->
  slice_rows a k = Ok (mkArray [Nat.min k n] (take (Nat.min k n) (data a))).
Proof.
  unfold slice_rows. intros ->. cbn [fold_right]. rewrite Nat.mul_1_r. reflexivity.
Qed.

Lemma torch_t_matrix a r c :
  shape a = [r; c] ->
  torch_t a = Ok (mkArray [c; r] (tabulate2 c r (fun i j => get2 a j i))).
Proof. unfold torch_t. intros ->. reflexivity. Qed.

Lemma torch_diag_vector a n :
  shape a = [n] ->
  torch_diag a
  = Ok (mkArray [n; n]
          (tabulate2 n n (fun i j => if Nat.eqb i j then get1 a i else szero))).
Proof. unfold torch_diag. intros ->. reflexivity. Qed.

Lemma torch_mm_matrix a b r n c :
  shape a = [r; n] -> shape b = [n; c] ->
  torch_mm a b
  = Ok (mkArray [r; c]
          (tabulate2 r c (fun i j => ssum n (fun l => smul (get2 a i l) (get2 b l j))))).
Proof. unfold torch_mm. intros -> ->. rewrite Nat.eqb_refl. reflexivity. Qed.

(** *** Sums *)

Lemma ssum_ext n (f g : nat -> K) :
  (forall i, i < n -> f i = g i) -> ssum n f = ssum n g.
Proof.
  induction n as [|n IH]; intros H; cbn; [reflexivity|].
  rewrite IH by (intros; apply H; lia). rewrite H by lia. reflexivity.
Qed.

Lemma ssum_add n (f g : nat -> K) :
  ssum n (fun i => sadd (f i) (g i)) = sadd (ssum n f) (ssum n g).
Proof. induction n as [|n IH]; cbn; [ring | rewrite IH; ring]. Qed.

Lemma ssum_zero n : ssum n (fun _ => szero) = (szero : K).
Proof. induction n as [|n IH]; cbn; [reflexivity | rewrite IH; ring]. Qed.

Lemma ssum_mul_r n (f : nat -> K) c :
  smul (ssum n f) c = ssum n (fun i => smul (f i) c).
Proof. induction n as [|n IH]; cbn; [ring | rewrite <- IH; ring]. Qed.

Lemma ssum_mul_l n (f : nat -> K) c :
  smul c (ssum n f) = ssum n (fun i => smul c (f i)).
Proof. induction n as [|n IH]; cbn; [ring | rewrite <- IH; ring]. Qed.

Lemma ssum_swap n m (f : nat -> nat -> K) :
  ssum n (fun i => ssum m (fun j => f i j))
  = ssum m (fun j => ssum n (fun i => f i j)).
Proof.
  induction n as [|n IH]; cbn.
  - symmetry. apply ssum_zero.
  - rewrite IH. symmetry. apply ssum_add.
Qed.

(** [W2 (W1 x) = (W2 W1) x], entry by entry. *)
Lemma matvec_assoc k n (x : nat -> K) (W1 W2 : nat -> nat -> K) p :
  ssum k (fun i => smul (ssum n (fun j => smul (x j) (W1 i j))) (W2 p i))
  = ssum n (fun j => smul (x j) (ssum k (fun i => smul (W2 p i) (W1 i j)))).
Proof.
  transitivity
    (ssum k (fun i => ssum n (fun j => smul (x j) (smul (W2 p i) (W1 i j))))).
  - apply ssum_ext. intros i _. rewrite ssum_mul_r.
    apply ssum_ext. intros j _. ring.
  - rewrite ssum_swap. apply ssum_ext. intros j _.
    rewrite ssum_mul_l. reflexivity.
Qed.

(** *** Entries of tabulated tensors *)

Lemma nth_tabulate2 r c (f : nat -> nat -> K) i j d :
  i < r -> j < c -> nth (i * c + j) (tabulate2 r c f) d = f i j.
Proof.
  unfold tabulate2. intros Hi Hj.
  assert (Hgen : forall s, nth (i * c + j)
            (flat_map (fun i0 => map (f i0) (seq 0 c)) (seq s r)) d = f (s + i) j).
  { revert i Hi. induction r as [|r IH]; intros i Hi s; [lia|].
    cbn [seq flat_map]. destruct i as [|i].
    - cbn [Nat.mul Nat.add].
      rewrite app_nth1 by (rewrite length_map, length_seq; lia).
      rewrite (nth_indep _ d (f s 0)) by (rewrite length_map, length_seq; lia).
      rewrite map_nth, seq_nth by lia. f_equal; lia.
    - rewrite app_nth2 by (rewrite length_map, length_seq; lia).
      rewrite length_map, length_seq.
      replace (S i * c + j - c) with (i * c + j) by lia.
      rewrite IH by lia. f_equal; lia. }
  apply Hgen.
Qed.

Lemma get2_tabulate2 r c (f : nat -> nat -> K) i j :
  i < r -> j < c -> get2 (mkArray [r; c] (tabulate2 r c f)) i j = f i j.
Proof.
  intros Hi Hj. unfold get2. cbn [shape data nth].
  apply nth_tabulate2; assumption.
Qed.

Lemma get1_map_seq s n (f : nat -> K) i :
  i < n -> get1 (mkArray s (map f (seq 0 n))) i = f i.
Proof.
  intros Hi. unfold get1. cbn [data].
  rewrite (nth_indep _ szero (f 0)) by (rewrite length_map, length_seq; lia).
  rewrite map_nth, seq_nth by lia. reflexivity.
Qed.

(** Two linear layers in a row are one linear layer whose weight is the
    product of the two weights. *)
Lemma F_linear_compose x Wv Wu bv A n k m :
  shape x = [n] -> shape Wv = [k; n] -> shape Wu = [m; k] -> shape bv = [m] ->
  torch_mm Wu Wv = Ok A ->
  match F_linear x Wv None with
  | Ok y => F_linear y Wu (Some bv)
  | Raise e => Raise e
  end = F_linear x A (Some bv)
  /\ exists y, F_linear x A (Some bv) = Ok y /\ shape y = [m].
Proof.
  intros Hx Hv Hu Hb HA.
  rewrite (torch_mm_matrix _ _ _ _ _ Hu Hv) in HA. injection HA as <-.
  unfold F_linear.
  repeat (rewrite ?Hx, ?Hv, ?Hu, ?Hb, ?Nat.eqb_refl; cbn [shape]).
  split; [|eexists; split; reflexivity].
  do 2 f_equal. apply map_ext_in. intros p Hp. apply in_seq in Hp.
  f_equal.
  transitivity
    (ssum k (fun i => smul (ssum n (fun j => smul (get1 x j) (get2 Wv i j)))
                           (get2 Wu p i))).
  - apply ssum_ext. intros i Hi. rewrite get1_map_seq by lia. reflexivity.
  - rewrite matvec_assoc. apply ssum_ext. intros j Hj.
    rewrite get2_tabulate2 by lia. reflexivity.
Qed.

Lemma max_shape_Ok a n : max_shape a = Ok n -> n = list_max (shape a).
Proof. unfold max_shape. destruct (shape a); [discriminate|]. congruence. Qed.

End Tensors.

(** ** Stepping through a run *)

Ltac heap_lookup :=
  repeat first [ rewrite lookup_insert_eq | rewrite lookup_insert_ne by lia ].

Ltac wp_simpl :=
  cbv beta iota delta [with_heap log_call no_attribute np_copy];
  cbn [with_heap log_call heap next_id lib_random torch_random stdout calls
       fst snd outcome module_weight module_bias module_conv bias_data
       with_weight with_bias pair_of Nat.eqb negb unpack4 unpack2
       in_channels out_channels kernel_size stride padding dilation groups
       conv_weight conv_bias in_features out_features linear_weight linear_bias].

Ltac head_of t :=
  lazymatch t with
  | ?f _ => head_of f
  | _ => t
  end.

Ltac shape_fact := first [ eassumption | reflexivity ].

(** Evaluating an operation whose operands have known shapes. *)
Ltac eval_lift r :=
  lazymatch r with
  | shape_at _ 0 => erewrite shape_at_0 by shape_fact
  | shape_at _ 1 => erewrite shape_at_1 by shape_fact
  | max_shape _ => erewrite max_shape_cons by shape_fact
  | np_transpose_1_0 _ => erewrite np_transpose_1_0_matrix by shape_fact
  | expand_dims2 _ (-1)%Z (-1)%Z => erewrite expand_dims2_matrix by shape_fact
  | transpose_expand_dims2 _ 1%Z (-1)%Z =>
      erewrite transpose_expand_dims2_1_m1 by shape_fact
  | transpose_expand_dims2 _ 1%Z 1%Z =>
      erewrite transpose_expand_dims2_1_1 by shape_fact
  | transpose_expand_dims2 _ (-1)%Z (-1)%Z =>
      erewrite transpose_expand_dims2_m1_m1 by shape_fact
  | slice_cols _ _ => erewrite slice_cols_matrix by shape_fact
  | slice_rows _ _ => erewrite slice_rows_vector by shape_fact
  | torch_t _ => erewrite torch_t_matrix by shape_fact
  | torch_diag _ => erewrite torch_diag_vector by shape_fact
  | torch_mm _ _ => erewrite torch_mm_matrix by shape_fact
  end.

(** A fact about this term is known: use it; otherwise split on it. *)
Ltac known_or_destruct t :=
  first [ match goal with H : t = _ |- _ => rewrite H end
        | destruct t eqn:? ].

Ltac wp_lib_call :=
  let r := fresh "r" in let E := fresh "Er" in
  intros r E;
  cbn [lib_random torch_random] in E;
  first [ lazymatch type of E with
          | _ = ?t => match goal with H : t = _ |- _ => rewrite H in E end
          end; subst r
        | destruct r as [[?|?] ?]; symmetry in E
        | destruct r as [?|?]; symmetry in E ].

Ltac wp_step :=
  lazymatch goal with
  | |- wp (bind _ _) _ _ => apply wp_bind
  | |- wp (ret _) _ _ => apply wp_ret
  | |- wp (raise _) _ _ => apply wp_raise
  | |- wp (lift _) _ _ => apply wp_lift
  | |- wp (get_module _) _ _ =>
      first
        [ eapply wp_get_module;
          [ cbn [heap with_heap]; heap_lookup; first [eassumption | reflexivity] |]
        | eapply wp_get_module_None;
          [ cbn [heap with_heap]; heap_lookup; eassumption |] ]
  | |- wp (set_module _ _) _ _ => apply wp_set_module
  | |- wp (alloc _) _ _ => apply wp_alloc
  | |- wp (print _) _ _ => apply wp_print
  | |- wp (new_parameter _ _) _ _ => apply wp_new_parameter
  | |- wp (call_parafac _ _ _ _) _ _ => apply wp_call_parafac; wp_lib_call
  | |- wp (call_partial_tucker _ _ _ _ _) _ _ =>
      apply wp_call_partial_tucker; wp_lib_call
  | |- wp (call_unfold _ _ _) _ _ => apply wp_call_unfold; wp_lib_call
  | |- wp (call_EVBMF _ _) _ _ => apply wp_call_EVBMF; wp_lib_call
  | |- wp (call_svd _ _) _ _ => apply wp_call_svd; wp_lib_call
  | |- wp (if ?b then _ else _) _ _ =>
      first [ progress (rewrite ?Nat.mod_1_r, ?Nat.Div0.mod_same; cbn [Nat.eqb negb])
            | known_or_destruct b ]
  | |- wp (match ?x with _ => _ end) _ _ => known_or_destruct x
  | |- wp ?m _ _ => let h := head_of m in unfold h at 1
  | |- match ?r with Ok _ => _ | Raise _ => _ end =>
      first [ eval_lift r | known_or_destruct r ]
  end.

Ltac wp_go := repeat (wp_simpl; wp_step); wp_simpl.


(** Opening move: the world as a record, the layer looked up. *)
Ltac start_run w layer :=
  let m := fresh "m0" in let Hl := fresh "Hlayer" in
  destruct w as [h n g t o cs]; cbn [next_id heap] in *;
  destruct (h !! layer) as [m|] eqn:Hl.

Ltac solve_children :=
  cbn [heap];
  eapply children_of_intro;
  [ heap_lookup; reflexivity
  | repeat first [ apply List.Forall2_nil | apply List.Forall2_cons ];
    heap_lookup; reflexivity ].

(** Running a second computation inside a goal about its result and final
    world. *)
Ltac run_also m w :=
  pattern (fst (m w)), (snd (m w)); apply wp_run.

Ltac same_children :=
  cbn [observe fst snd]; f_equal;
  etransitivity; [ solve_children | symmetry; solve_children ].

(** The events a run added are the tail of its log. *)
Ltac new_calls_tail :=
  unfold new_calls; cbn [calls heap];
  rewrite <- ?app_assoc; try rewrite drop_app_length;
  rewrite ?drop_all; cbn [app].

Ltac finish_failure :=
  let i := fresh "i" in let ev := fresh "ev" in let e := fresh "e" in
  let Hi := fresh "Hi" in let Hr := fresh "Hr" in
  intros i ev e; new_calls_tail;
  intros Hi Hr;
  repeat (destruct i as [|i]; cbn in Hi;
          [ injection Hi as <-; cbn in Hr; try discriminate Hr;
            injection Hr as <-; auto | ]);
  try discriminate Hi.

Ltac finish_frame :=
  let l' := fresh "l" in let Hl' := fresh "Hl" in
  intros l' Hl'; cbn [heap]; heap_lookup; reflexivity.

Ltac start_no_bias w m Hb :=
  destruct w as [h n g t o cs]; cbn [next_id heap] in *;
  destruct m as [[] | [] | ]; cbn in Hb; try discriminate Hb;
  injection Hb as ->.

(** * Lemmas on the transformations and the helpers *)

Section Runs.

Context {K : scalar_ring} {rng : Type}.
Variable lib : @library K rng.

Implicit Types (w : @world K rng) (l layer : loc).

(** ** Properties of every run *)

(** *** Bias *)

Lemma cp_bias w layer rank :
  layer < next_id w ->
  wp (cp_decomposition_conv_layer lib layer rank)
     (fun r w' => forall ret, r = Ok ret ->
        exists (m : @module K) b,
          heap w !! layer = Some m /\ module_bias m = Ok (Some b) /\
          only_last_has_bias b (heap w') ret) w.
Proof.
  intros Hlt. start_run w layer; [destruct m0 as [c|lin|cs0] |].
  all: wp_go.
  all: intros ret Hret; try discriminate Hret; injection Hret as <-.
  all: lazymatch goal with
       | H : bias_data ?b = Ok _ |- _ =>
           destruct b eqn:Hb; cbn in H; [injection H as <- | discriminate H]
       end.
  all: eexists _, _; split; [reflexivity|].
  all: split; [cbn [module_bias]; rewrite Hb; reflexivity|].
  all: eexists [_; _; _], _; split; [solve_children|].
  all: split; [repeat constructor | reflexivity].
Qed.

Lemma tucker_bias w layer :
  layer < next_id w ->
  wp (tucker_decomposition_conv_layer lib layer)
     (fun r w' => forall ret, r = Ok ret ->
        exists (m : @module K) b,
          heap w !! layer = Some m /\ module_bias m = Ok (Some b) /\
          only_last_has_bias b (heap w') ret) w.
Proof.
  intros Hlt. start_run w layer; [destruct m0 as [c|lin|cs0] |].
  all: wp_go.
  all: intros ret Hret; try discriminate Hret; injection Hret as <-.
  all: lazymatch goal with
       | H : bias_data ?b = Ok _ |- _ =>
           destruct b eqn:Hb; cbn in H; [injection H as <- | discriminate H]
       end.
  all: eexists _, _; split; [reflexivity|].
  all: split; [cbn [module_bias]; rewrite Hb; reflexivity|].
  all: eexists [_; _], _; split; [solve_children|].
  all: split; [repeat constructor | reflexivity].
Qed.

Lemma svd_bias w layer :
  layer < next_id w ->
  wp (svd_decomposition_dense_layer lib layer)
     (fun r w' => forall ret, r = Ok ret ->
        exists (m : @module K) b,
          heap w !! layer = Some m /\ module_bias m = Ok (Some b) /\
          only_last_has_bias b (heap w') ret) w.
Proof.
  intros Hlt. start_run w layer; [destruct m0 as [c|lin|cs0] |].
  all: wp_go.
  all: intros ret Hret; try discriminate Hret; injection Hret as <-.
  all: lazymatch goal with
       | H : bias_data ?b = Ok _ |- _ =>
           destruct b eqn:Hb; cbn in H; [injection H as <- | discriminate H]
       end.
  all: eexists _, _; split; [reflexivity|].
  all: split; [cbn [module_bias]; rewrite Hb; reflexivity|].
  all: eexists [_], _; split; [solve_children|].
  all: split; [repeat constructor | reflexivity].
Qed.

(** *** Strides and paddings *)

Lemma cp_strides w layer rank :
  layer < next_id w ->
  wp (cp_decomposition_conv_layer lib layer rank)
     (fun r w' => forall ret, r = Ok ret ->
        exists c, heap w !! layer = Some (Conv2d c) /\
                  has_cp_strides c (heap w') ret) w.
Proof.
  intros Hlt. start_run w layer; [destruct m0 as [c|lin|cs0] |].
  all: wp_go.
  all: intros ret Hret; try discriminate Hret; injection Hret as <-.
  all: eexists; split; [reflexivity|].
  all: eexists _, _, _, _; split; [solve_children|].
  all: cbn; auto 10.
Qed.

Lemma tucker_strides w layer :
  layer < next_id w ->
  wp (tucker_decomposition_conv_layer lib layer)
     (fun r w' => forall ret, r = Ok ret ->
        exists c, heap w !! layer = Some (Conv2d c) /\
                  has_tucker_strides c (heap w') ret) w.
Proof.
  intros Hlt. start_run w layer; [destruct m0 as [c|lin|cs0] |].
  all: wp_go.
  all: intros ret Hret; try discriminate Hret; injection Hret as <-.
  all: eexists; split; [reflexivity|].
  all: eexists _, _, _; split; [solve_children|].
  all: cbn; auto 10.
Qed.

(** *** The objects that existed before the call *)

Lemma cp_frame w layer rank :
  layer < next_id w ->
  wp (cp_decomposition_conv_layer lib layer rank)
     (fun _ w' => forall l, l < next_id w -> heap w' !! l = heap w !! l) w.
Proof.
  intros Hlt. start_run w layer; [destruct m0 as [c|lin|cs0] |].
  all: wp_go. all: finish_frame.
Qed.

Lemma tucker_frame w layer :
  layer < next_id w ->
  wp (tucker_decomposition_conv_layer lib layer)
     (fun _ w' => forall l, l < next_id w -> heap w' !! l = heap w !! l) w.
Proof.
  intros Hlt. start_run w layer; [destruct m0 as [c|lin|cs0] |].
  all: wp_go. all: finish_frame.
Qed.

Lemma svd_frame w layer :
  layer < next_id w ->
  wp (svd_decomposition_dense_layer lib layer)
     (fun _ w' => forall l, l < next_id w -> heap w' !! l = heap w !! l) w.
Proof.
  intros Hlt. start_run w layer; [destruct m0 as [c|lin|cs0] |].
  all: wp_go. all: finish_frame.
Qed.

(** *** A layer without bias *)

Lemma cp_no_bias w layer rank (m : @module K) :
  layer < next_id w -> heap w !! layer = Some m -> module_bias m = Ok None ->
  wp (cp_decomposition_conv_layer lib layer rank)
     (fun r _ => exists e, r = Raise e) w.
Proof.
  intros Hlt Hl Hb. start_no_bias w m Hb.
  all: wp_go. all: eexists; reflexivity.
Qed.

Lemma tucker_no_bias w layer (m : @module K) :
  layer < next_id w -> heap w !! layer = Some m -> module_bias m = Ok None ->
  wp (tucker_decomposition_conv_layer lib layer)
     (fun r _ => exists e, r = Raise e) w.
Proof.
  intros Hlt Hl Hb. start_no_bias w m Hb.
  all: wp_go. all: eexists; reflexivity.
Qed.

Lemma svd_no_bias w layer (m : @module K) :
  layer < next_id w -> heap w !! layer = Some m -> module_bias m = Ok None ->
  wp (svd_decomposition_dense_layer lib layer)
     (fun r _ => exists e, r = Raise e) w.
Proof.
  intros Hlt Hl Hb. start_no_bias w m Hb.
  all: wp_go. all: eexists; reflexivity.
Qed.

(** *** A layer without bias, when the decomposition succeeds *)

Lemma cp_no_bias_exact w layer rank c last first vertical horizontal g'
  t0 t1 s0 s1 kh rv kw rh :
  layer < next_id w ->
  heap w !! layer = Some (Conv2d c) ->
  conv_bias c = None ->
  shape (conv_weight c) <> [] ->
  parafac lib (conv_weight c) rank (cp_init (conv_weight c)) (lib_random w)
  = (Ok [last; first; vertical; horizontal], g') ->
  shape last = [t0; t1] ->
  shape first = [s0; s1] ->
  shape vertical = [kh; rv] ->
  shape horizontal = [kw; rh] ->
  0 < rv -> 0 < rh ->
  wp (cp_decomposition_conv_layer lib layer rank)
     (fun res w' =>
        res = Raise (AttributeError "'NoneType' object has no attribute 'data'") /\
        next_id w' = next_id w + 4) w.
Proof.
  intros Hlt Hl Hb Hne Hpf Hs_last Hs_first Hs_vert Hs_hor Hrv Hrh.
  destruct w as [h n g t o cs]; cbn [next_id heap lib_random] in *.
  assert (Hrv0 : (rv =? 0) = false) by (apply Nat.eqb_neq; lia).
  assert (Hrh0 : (rh =? 0) = false) by (apply Nat.eqb_neq; lia).
  assert (Hbd : bias_data (conv_bias c)
                = Raise (AttributeError "'NoneType' object has no attribute 'data'"))
    by (rewrite Hb; reflexivity).
  unfold cp_init in Hpf.
  destruct (256 <=? list_max (shape (conv_weight c))) eqn:Hsize.
  all: destruct (shape (conv_weight c)) as [|d rest] eqn:HsX; [contradiction|].
  all: rewrite <- HsX in Hsize.
  all: wp_go.
  all: split; [reflexivity | lia].
Qed.

Lemma tucker_no_bias_exact w layer c u0 u1 U0 d0 V0 p0 U1 d1 V1 p1 r0 r1
  core last first g' c0 c1 t0 t1 s0 s1 :
  layer < next_id w ->
  heap w !! layer = Some (Conv2d c) ->
  conv_bias c = None ->
  unfold lib (conv_weight c) 0 = Ok u0 ->
  unfold lib (conv_weight c) 1 = Ok u1 ->
  EVBMF lib u0 = Ok (U0, d0, V0, p0) ->
  EVBMF lib u1 = Ok (U1, d1, V1, p1) ->
  shape_at d0 0 = Ok r0 ->
  shape_at d1 1 = Ok r1 ->
  partial_tucker lib (conv_weight c) [0; 1] [r0; r1] InitSvd (lib_random w)
  = (Ok (core, [last; first]), g') ->
  shape_at core 0 = Ok c0 ->
  shape_at core 1 = Ok c1 ->
  shape last = [t0; t1] ->
  shape first = [s0; s1] ->
  wp (tucker_decomposition_conv_layer lib layer)
     (fun res w' =>
        res = Raise (AttributeError "'NoneType' object has no attribute 'data'") /\
        next_id w' = next_id w + 3) w.
Proof.
  intros Hlt Hl Hb Hu0 Hu1 He0 He1 Hr0 Hr1 Hpt Hc0 Hc1 Hs_last Hs_first.
  destruct w as [h n g t o cs]; cbn [next_id heap lib_random] in *.
  assert (Hbd : bias_data (conv_bias c)
                = Raise (AttributeError "'NoneType' object has no attribute 'data'"))
    by (rewrite Hb; reflexivity).
  wp_go.
  split; [reflexivity | lia].
Qed.

Lemma svd_no_bias_exact w layer lin U0 dg V0 p0 k U S_ V dm dn du dv r :
  layer < next_id w ->
  heap w !! layer = Some (Linear lin) ->
  linear_bias lin = None ->
  shape (linear_weight lin) = [dm; dn] ->
  EVBMF lib (linear_weight lin) = Ok (U0, dg, V0, p0) ->
  shape_at dg 0 = Ok k ->
  svd lib (linear_weight lin) = Ok (U, S_, V) ->
  shape U = [du; r] -> shape S_ = [r] -> shape V = [dv; r] ->
  wp (svd_decomposition_dense_layer lib layer)
     (fun res w' =>
        res = Raise (AttributeError "'NoneType' object has no attribute 'data'") /\
        next_id w' = next_id w + 2) w.
Proof.
  intros Hlt Hl Hb HW HE Hk Hsvd HsU HsS HsV.
  destruct w as [h n0 g t o cs]; cbn [next_id heap lib_random] in *.
  assert (Hbd : bias_data (linear_bias lin)
                = Raise (AttributeError "'NoneType' object has no attribute 'data'"))
    by (rewrite Hb; reflexivity).
  wp_go.
  split; [reflexivity | lia].
Qed.

(** *** Library calls that raise *)

Lemma cp_failure w layer rank :
  layer < next_id w ->
  wp (cp_decomposition_conv_layer lib layer rank) (failure_propagates w) w.
Proof.
  intros Hlt. unfold failure_propagates.
  start_run w layer; [destruct m0 as [c|lin|cs0] |].
  all: wp_go. all: finish_failure.
Qed.

Lemma tucker_failure w layer :
  layer < next_id w ->
  wp (tucker_decomposition_conv_layer lib layer) (failure_propagates w) w.
Proof.
  intros Hlt. unfold failure_propagates.
  start_run w layer; [destruct m0 as [c|lin|cs0] |].
  all: wp_go. all: finish_failure.
Qed.

Lemma svd_failure w layer :
  layer < next_id w ->
  wp (svd_decomposition_dense_layer lib layer) (failure_propagates w) w.
Proof.
  intros Hlt. unfold failure_propagates.
  start_run w layer; [destruct m0 as [c|lin|cs0] |].
  all: wp_go. all: finish_failure.
Qed.

Lemma estimate_ranks_tucker_failure w layer :
  wp (estimate_ranks_tucker lib layer) (failure_propagates w) w.
Proof.
  unfold failure_propagates.
  start_run w layer; [destruct m0 as [c|lin|cs0] |].
  all: wp_go. all: finish_failure.
Qed.

Lemma estimate_ranks_svd_failure w layer :
  wp (estimate_ranks_svd lib layer) (failure_propagates w) w.
Proof.
  unfold failure_propagates.
  start_run w layer; [destruct m0 as [c|lin|cs0] |].
  all: wp_go. all: finish_failure.
Qed.

(** ** Rank estimation *)

Lemma estimate_ranks_tucker_refines w layer :
  square_diag lib ->
  fst (estimate_ranks_tucker lib layer w)
  = fst (estimate_ranks_by_unfolding lib layer w) /\
  calls (snd (estimate_ranks_tucker lib layer w))
  = calls (snd (estimate_ranks_by_unfolding lib layer w)).
Proof.
  intros Hsq.
  run_also (estimate_ranks_tucker lib layer) w.
  start_run w layer; [destruct m0 as [c|lin|cs0] |].
  all: wp_go.
  all: run_also (estimate_ranks_by_unfolding lib layer) (mkWorld h n g t o cs).
  all: wp_go.
  all: repeat match goal with
              | E : EVBMF lib _ = Ok _ |- _ => apply Hsq in E
              end.
  all: try (split; [congruence | reflexivity]).
Qed.

Lemma estimate_ranks_svd_run w layer (m : @module K) W :
  heap w !! layer = Some m -> module_weight m = Ok W ->
  fst (estimate_ranks_svd lib layer w)
  = match EVBMF lib W with
    | Ok (_, d, _, _) => shape_at d 0
    | Raise e => Raise e
    end /\
  new_calls w (snd (estimate_ranks_svd lib layer w))
  = [mkEvent (CallEVBMF W) (outcome (EVBMF lib W))].
Proof.
  intros Hl HW.
  run_also (estimate_ranks_svd lib layer) w.
  destruct w as [h n g t o cs]; cbn [heap] in Hl.
  wp_go.
  all: unfold new_calls; cbn [calls]; rewrite drop_app_length.
  all: try rewrite Er; cbn [outcome].
  all: split; congruence.
Qed.

(** ** The container that is returned when the library calls succeed *)

Lemma cp_structure w layer rank c b last first vertical horizontal g' :
  layer < next_id w ->
  heap w !! layer = Some (Conv2d c) ->
  shape (conv_weight c)
  = [out_channels c; in_channels c / groups c;
     fst (kernel_size c); snd (kernel_size c)] ->
  conv_bias c = Some b ->
  0 < rank ->
  parafac lib (conv_weight c) rank (cp_init (conv_weight c)) (lib_random w)
  = (Ok [last; first; vertical; horizontal], g') ->
  shape last = [out_channels c; rank] ->
  shape first = [in_channels c / groups c; rank] ->
  shape vertical = [fst (kernel_size c); rank] ->
  shape horizontal = [snd (kernel_size c); rank] ->
  wp (cp_decomposition_conv_layer lib layer rank)
     (fun r w' => exists ret, r = Ok ret /\ has_cp_structure c rank (heap w') ret) w.
Proof.
  intros Hlt Hl HX Hb Hrank Hpf Hs_last Hs_first Hs_vert Hs_hor.
  destruct w as [h n g t o cs]; cbn [next_id heap lib_random] in *.
  assert (Hr0 : (rank =? 0) = false) by (apply Nat.eqb_neq; lia).
  assert (Hbd : bias_data (conv_bias c) = Ok b) by (rewrite Hb; reflexivity).
  unfold cp_init in Hpf.
  destruct (256 <=? list_max (shape (conv_weight c))) eqn:Hsize.
  all: wp_go.
  all: eexists; split; [reflexivity|].
  all: eexists _, _, _, _; split; [solve_children|].
  all: cbn [hyper in_channels out_channels kernel_size stride padding dilation
            groups conv_weight conv_bias from_numpy np_float32 shape].
  all: auto 20.
Qed.

Lemma tucker_structure w layer c b u0 u1 U0 d0 V0 p0 U1 d1 V1 p1 r0 r1
  core last first g' :
  layer < next_id w ->
  heap w !! layer = Some (Conv2d c) ->
  shape (conv_weight c)
  = [out_channels c; in_channels c / groups c;
     fst (kernel_size c); snd (kernel_size c)] ->
  conv_bias c = Some b ->
  unfold lib (conv_weight c) 0 = Ok u0 ->
  unfold lib (conv_weight c) 1 = Ok u1 ->
  EVBMF lib u0 = Ok (U0, d0, V0, p0) ->
  EVBMF lib u1 = Ok (U1, d1, V1, p1) ->
  shape_at d0 0 = Ok r0 ->
  shape_at d1 1 = Ok r1 ->
  partial_tucker lib (conv_weight c) [0; 1] [r0; r1] InitSvd (lib_random w)
  = (Ok (core, [last; first]), g') ->
  shape core = [r0; r1; fst (kernel_size c); snd (kernel_size c)] ->
  shape last = [out_channels c; r0] ->
  shape first = [in_channels c / groups c; r1] ->
  wp (tucker_decomposition_conv_layer lib layer)
     (fun r w' => exists ret, r = Ok ret /\
        has_tucker_structure lib c r0 r1 core last first (heap w') ret) w.
Proof.
  intros Hlt Hl HX Hb Hu0 Hu1 He0 He1 Hr0 Hr1 Hpt Hs_core Hs_last Hs_first.
  destruct w as [h n g t o cs]; cbn [next_id heap lib_random] in *.
  assert (Hbd : bias_data (conv_bias c) = Ok b) by (rewrite Hb; reflexivity).
  wp_go.
  eexists; split; [reflexivity|].
  eexists _, _, _; split; [solve_children|].
  cbn [hyper in_channels out_channels kernel_size stride padding dilation
       groups conv_weight conv_bias from_numpy shape].
  auto 20.
Qed.

Lemma forward_two_linear (h : gmap loc (@module K)) ret l1 l2 lv lu x depth :
  2 <= depth ->
  h !! ret = Some (Sequential [l1; l2]) ->
  h !! l1 = Some (Linear lv) ->
  h !! l2 = Some (Linear lu) ->
  forward lib depth h ret x
  = match F_linear x (linear_weight lv) (linear_bias lv) with
    | Ok y => F_linear y (linear_weight lu) (linear_bias lu)
    | Raise e => Raise e
    end.
Proof.
  intros Hd Hret H1 H2. destruct depth as [|[|d]]; try lia.
  cbn [forward]. rewrite Hret. cbn [fold_left forward]. rewrite H1.
  destruct (F_linear x (linear_weight lv) (linear_bias lv)); [|reflexivity].
  destruct d; rewrite H2; reflexivity.
Qed.

Lemma svd_structure w layer lin b U0 dg V0 p0 k U S_ V dm dn r :
  layer < next_id w ->
  heap w !! layer = Some (Linear lin) ->
  shape (linear_weight lin) = [dm; dn] ->
  linear_bias lin = Some b ->
  shape b = [dm] ->
  EVBMF lib (linear_weight lin) = Ok (U0, dg, V0, p0) ->
  shape_at dg 0 = Ok k ->
  svd lib (linear_weight lin) = Ok (U, S_, V) ->
  shape U = [dm; r] -> shape S_ = [r] -> shape V = [dn; r] ->
  wp (svd_decomposition_dense_layer lib layer)
     (fun res w' => exists ret, res = Ok ret /\
        computes_truncated_svd lib (linear_weight lin) b U S_ V k dn (heap w') ret) w.
Proof.
  intros Hlt Hl HW Hb Hsb HE Hk Hsvd HsU HsS HsV.
  destruct w as [h n0 g t o cs]; cbn [next_id heap lib_random] in *.
  assert (Hbd : bias_data (linear_bias lin) = Ok b) by (rewrite Hb; reflexivity).
  wp_go.
  eexists; split; [reflexivity|].
  eexists _, _, _. split; [solve_children|].
  eassert (HA : truncated_svd U S_ V k = Ok _).
  { unfold truncated_svd.
    rewrite (slice_cols_matrix U _ _ k HsU), (slice_rows_vector S_ _ k HsS),
      (slice_cols_matrix V _ _ k HsV).
    erewrite torch_diag_vector by reflexivity.
    erewrite torch_mm_matrix by reflexivity.
    erewrite torch_t_matrix by reflexivity.
    erewrite torch_mm_matrix by reflexivity.
    reflexivity. }
  split; [exact HA|]. split; [rewrite HW; reflexivity|].
  intros depth x Hd Hx. cbn [heap].
  erewrite forward_two_linear;
    [ | exact Hd | heap_lookup; reflexivity | heap_lookup; reflexivity
      | heap_lookup; reflexivity ].
  cbn [linear_weight linear_bias].
  rewrite Hsb.
  eapply F_linear_compose; [exact Hx | reflexivity | reflexivity | exact Hsb |].
  erewrite torch_mm_matrix by reflexivity. reflexivity.
Qed.

(** ** Two runs on the same layer *)
Lemma svd_deterministic w1 w2 l1 l2 (m : @module K) :
  l1 < next_id w1 -> l2 < next_id w2 ->
  heap w1 !! l1 = Some m -> heap w2 !! l2 = Some m ->
  observe (svd_decomposition_dense_layer lib l1 w1)
  = observe (svd_decomposition_dense_layer lib l2 w2).
Proof.
  intros Hlt1 Hlt2 Hl1 Hl2. unfold observe.
  run_also (svd_decomposition_dense_layer lib l1) w1.
  destruct w1 as [h1 n1 g1 t1 o1 cs1], w2 as [h2 n2 g2 t2 o2 cs2].
  cbn [next_id heap] in *.
  destruct m as [c|lin|cs0].
  all: wp_go.
  all: run_also (svd_decomposition_dense_layer lib l2) (mkWorld h2 n2 g2 t2 o2 cs2).
  all: wp_go.
  all: try reflexivity.
  all: same_children.
Qed.


Lemma estimate_ranks_tucker_deterministic w1 w2 l1 l2 (m : @module K) :
  heap w1 !! l1 = Some m -> heap w2 !! l2 = Some m ->
  fst (estimate_ranks_tucker lib l1 w1) = fst (estimate_ranks_tucker lib l2 w2).
Proof.
  intros Hl1 Hl2.
  run_also (estimate_ranks_tucker lib l1) w1.
  destruct w1 as [h1 n1 g1 t1 o1 cs1], w2 as [h2 n2 g2 t2 o2 cs2].
  cbn [next_id heap] in *.
  destruct m as [c|lin|cs0].
  all: wp_go.
  all: run_also (estimate_ranks_tucker lib l2) (mkWorld h2 n2 g2 t2 o2 cs2).
  all: wp_go.
  all: reflexivity.
Qed.

Lemma estimate_ranks_svd_deterministic w1 w2 l1 l2 (m : @module K) :
  heap w1 !! l1 = Some m -> heap w2 !! l2 = Some m ->
  fst (estimate_ranks_svd lib l1 w1) = fst (estimate_ranks_svd lib l2 w2).
Proof.
  intros Hl1 Hl2.
  run_also (estimate_ranks_svd lib l1) w1.
  destruct w1 as [h1 n1 g1 t1 o1 cs1], w2 as [h2 n2 g2 t2 o2 cs2].
  cbn [next_id heap] in *.
  destruct m as [c|lin|cs0].
  all: wp_go.
  all: run_also (estimate_ranks_svd lib l2) (mkWorld h2 n2 g2 t2 o2 cs2).
  all: wp_go.
  all: reflexivity.
Qed.

Lemma tucker_deterministic w1 w2 l1 l2 (m : @module K) :
  l1 < next_id w1 -> l2 < next_id w2 ->
  heap w1 !! l1 = Some m -> heap w2 !! l2 = Some m ->
  (forall X ranks, module_weight m = Ok X ->
     fst (partial_tucker lib X [0; 1] ranks InitSvd (lib_random w1))
     = fst (partial_tucker lib X [0; 1] ranks InitSvd (lib_random w2))) ->
  observe (tucker_decomposition_conv_layer lib l1 w1)
  = observe (tucker_decomposition_conv_layer lib l2 w2).
Proof.
  intros Hlt1 Hlt2 Hl1 Hl2 Hdet. unfold observe.
  run_also (tucker_decomposition_conv_layer lib l1) w1.
  destruct w1 as [h1 n1 g1 t1 o1 cs1], w2 as [h2 n2 g2 t2 o2 cs2].
  cbn [next_id heap lib_random] in *.
  destruct m as [c|lin|cs0]; wp_go;
    try match goal with
        | E : partial_tucker lib ?X ?ms ?rs InitSvd g1 = (?res, _) |- _ =>
            let H := fresh "E2" in
            assert (H : partial_tucker lib X ms rs InitSvd g2
                        = (res, snd (partial_tucker lib X ms rs InitSvd g2)))
              by (apply pair_eta_fst; rewrite <- (Hdet _ _ eq_refl), E; reflexivity)
        end.
  all: run_also (tucker_decomposition_conv_layer lib l2) (mkWorld h2 n2 g2 t2 o2 cs2).
  all: wp_go.
  all: try reflexivity.
  all: same_children.
Qed.

Lemma cp_deterministic w1 w2 l1 l2 (m : @module K) rank :
  l1 < next_id w1 -> l2 < next_id w2 ->
  heap w1 !! l1 = Some m -> heap w2 !! l2 = Some m ->
  (forall X, module_weight m = Ok X ->
     fst (parafac lib X rank (cp_init X) (lib_random w1))
     = fst (parafac lib X rank (cp_init X) (lib_random w2))) ->
  observe (cp_decomposition_conv_layer lib l1 rank w1)
  = observe (cp_decomposition_conv_layer lib l2 rank w2).
Proof.
  intros Hlt1 Hlt2 Hl1 Hl2 Hdet. unfold observe.
  run_also (cp_decomposition_conv_layer lib l1 rank) w1.
  destruct w1 as [h1 n1 g1 t1 o1 cs1], w2 as [h2 n2 g2 t2 o2 cs2].
  cbn [next_id heap lib_random] in *.
  destruct m as [c|lin|cs0];
    try (specialize (Hdet _ eq_refl); unfold cp_init in Hdet);
    wp_go;
    try match goal with
        | Hm : max_shape _ = Ok ?a, Hsz : (256 <=? ?a) = _ |- _ =>
            let Hsz' := fresh "Hsz" in
            pose proof Hsz as Hsz';
            rewrite (max_shape_Ok _ _ Hm) in Hsz'; rewrite Hsz' in Hdet
        end;
    try match goal with
        | E : parafac lib ?X ?rk ?i g1 = (?res, _) |- _ =>
            let H := fresh "E2" in
            assert (H : parafac lib X rk i g2 = (res, snd (parafac lib X rk i g2)))
              by (apply pair_eta_fst; rewrite <- Hdet, E; reflexivity)
        end.
  all: run_also (cp_decomposition_conv_layer lib l2 rank) (mkWorld h2 n2 g2 t2 o2 cs2).
  all: wp_go.
  all: try reflexivity.
  all: same_children.
Qed.


End Runs.

(** * The claims of the specification *)

Section Claims.

Context {K : scalar_ring} {rng : Type}.
Variable lib : @library K rng.

Implicit Types (w : @world K rng) (l layer : loc).


(** C2, as amended. For a convolution whose weight has the shape torch gives
    it, [(out_channels, in_channels // groups, kh, kw)], and which has a
    bias, and for a positive rank [R] for which [parafac] returns four
    factors of shapes [(out_channels, R)], [(in_channels // groups, R)],
    [(kh, R)], [(kw, R)], [cp_decomposition_conv_layer] returns a container
    of exactly four convolutions, in this order: a 1x1 pointwise convolution
    from [in_channels // groups] channels (the input channels of the layer
    when [groups = 1]) to [R], a depthwise [kh x 1] convolution over [R]
    channels, a depthwise [1 x kw] convolution over [R] channels, and a 1x1
    pointwise convolution from [R] to [out_channels] channels. *)
Theorem cp_decomposition_conv_layer_structure
  w layer rank c b last first vertical horizontal g' :
  layer < next_id w ->
  heap w !! layer = Some (Conv2d c) ->
  shape (conv_weight c)
  = [out_channels c; in_channels c / groups c;
     fst (kernel_size c); snd (kernel_size c)] ->
  conv_bias c = Some b ->
  0 < rank ->
  parafac lib (conv_weight c) rank (cp_init (conv_weight c)) (lib_random w)
  = (Ok [last; first; vertical; horizontal], g') ->
  shape last = [out_channels c; rank] ->
  shape first = [in_channels c / groups c; rank] ->
  shape vertical = [fst (kernel_size c); rank] ->
  shape horizontal = [snd (kernel_size c); rank] ->
  exists ret w',
    cp_decomposition_conv_layer lib layer rank w = (Ok ret, w') /\
    has_cp_structure c rank (heap w') ret.
Proof.
  intros. apply wp_returns with (P := fun ret w' =>
    has_cp_structure c rank (heap w') ret).
  eapply cp_structure; eassumption.
Qed.

(** C3, as amended. For a convolution whose weight has the shape
    [(out_channels, in_channels // groups, kh, kw)] and which has a bias,
    when EVBMF on the mode-0 and mode-1 unfoldings of the weight estimates
    the ranks [r0] and [r1] and [partial_tucker] over modes 0 and 1 at ranks
    [[r0, r1]] returns a core of shape [(r0, r1, kh, kw)] and factors of
    shapes [(out_channels, r0)] and [(in_channels // groups, r1)],
    [tucker_decomposition_conv_layer] returns a container of exactly three
    convolutions, in this order: a 1x1 pointwise convolution from
    [in_channels // groups] channels to [r1], a convolution with the kernel
    size, stride, padding and dilation of the layer whose weight is the
    core, from [r1] to [r0] channels, and a 1x1 pointwise convolution from
    [r0] to [out_channels] channels; the weights of the two pointwise layers
    are the two factors. *)
Theorem tucker_decomposition_conv_layer_structure
  w layer c b u0 u1 U0 d0 V0 p0 U1 d1 V1 p1 r0 r1 core last first g' :
  layer < next_id w ->
  heap w !! layer = Some (Conv2d c) ->
  shape (conv_weight c)
  = [out_channels c; in_channels c / groups c;
     fst (kernel_size c); snd (kernel_size c)] ->
  conv_bias c = Some b ->
  unfold lib (conv_weight c) 0 = Ok u0 ->
  unfold lib (conv_weight c) 1 = Ok u1 ->
  EVBMF lib u0 = Ok (U0, d0, V0, p0) ->
  EVBMF lib u1 = Ok (U1, d1, V1, p1) ->
  shape_at d0 0 = Ok r0 ->
  shape_at d1 1 = Ok r1 ->
  partial_tucker lib (conv_weight c) [0; 1] [r0; r1] InitSvd (lib_random w)
  = (Ok (core, [last; first]), g') ->
  shape core = [r0; r1; fst (kernel_size c); snd (kernel_size c)] ->
  shape last = [out_channels c; r0] ->
  shape first = [in_channels c / groups c; r1] ->
  exists ret w',
    tucker_decomposition_conv_layer lib layer w = (Ok ret, w') /\
    has_tucker_structure lib c r0 r1 core last first (heap w') ret.
Proof.
  intros. apply wp_returns with (P := fun ret w' =>
    has_tucker_structure lib c r0 r1 core last first (heap w') ret).
  eapply tucker_structure; eassumption.
Qed.

(** C4, as amended. [estimate_ranks_tucker] estimates ranks the way the
    specification says: it makes the library calls of, and returns what is
    returned by, unfolding the weight along modes 0 and 1, applying EVBMF to
    each unfolding and taking the dimensions of the two (square) diagonal
    matrices. [estimate_ranks_svd] does not unfold: it makes one library
    call, EVBMF on the weight itself, and returns the one number
    [diag.shape[0]]. *)
Theorem rank_estimation w layer (m : @module K) W :
  square_diag lib ->
  heap w !! layer = Some m ->
  module_weight m = Ok W ->
  (fst (estimate_ranks_tucker lib layer w)
   = fst (estimate_ranks_by_unfolding lib layer w) /\
   calls (snd (estimate_ranks_tucker lib layer w))
   = calls (snd (estimate_ranks_by_unfolding lib layer w))) /\
  (fst (estimate_ranks_svd lib layer w)
   = match EVBMF lib W with
     | Ok (_, d, _, _) => shape_at d 0
     | Raise e => Raise e
     end /\
   new_calls w (snd (estimate_ranks_svd lib layer w))
   = [mkEvent (CallEVBMF W) (outcome (EVBMF lib W))]).
Proof.
  intros Hsq Hl HW. split.
  - apply estimate_ranks_tucker_refines. exact Hsq.
  - eapply estimate_ranks_svd_run; eassumption.
Qed.


(** C6. After a call of any of the three transformations, raised exception
    or not, every module that existed before the call is what it was: in
    particular the input layer has the weight and the bias it had. *)
Theorem input_layer_unchanged (t : transformation) w layer (m : @module K) :
  layer < next_id w ->
  heap w !! layer = Some m ->
  heap (snd (run_transformation lib t layer w)) !! layer = Some m /\
  forall l, l < next_id w ->
    heap (snd (run_transformation lib t layer w)) !! l = heap w !! l.
Proof.
  intros Hlt Hl.
  assert (Hall : forall l, l < next_id w ->
            heap (snd (run_transformation lib t layer w)) !! l = heap w !! l).
  { destruct t as [rank| |]; cbn [run_transformation].
    - exact (wp_run _ _ _ (cp_frame lib w layer rank Hlt)).
    - exact (wp_run _ _ _ (tucker_frame lib w layer Hlt)).
    - exact (wp_run _ _ _ (svd_frame lib w layer Hlt)). }
  split; [rewrite Hall by exact Hlt; exact Hl | exact Hall].
Qed.

(** C7, as amended. The bias is not optional: on a layer whose bias is
    absent ([None]) each of the three transformations ends with an exception
    and returns no container. When the decomposition succeeds (the library
    calls return, the factors are matrices and, for CP, the two depthwise
    factors have at least one column) the exception is the [AttributeError]
    of [layer.bias.data], raised once the new layers have been constructed:
    four for CP, three for Tucker, two for SVD. *)
Theorem absent_bias_raises w layer (m : @module K) :
  layer < next_id w ->
  heap w !! layer = Some m ->
  module_bias m = Ok None ->
  (forall t, exists e, fst (run_transformation lib t layer w) = Raise e) /\
  (forall rank c last first vertical horizontal g' t0 t1 s0 s1 kh rv kw rh,
     m = Conv2d c ->
     shape (conv_weight c) <> [] ->
     parafac lib (conv_weight c) rank (cp_init (conv_weight c)) (lib_random w)
     = (Ok [last; first; vertical; horizontal], g') ->
     shape last = [t0; t1] ->
     shape first = [s0; s1] ->
     shape vertical = [kh; rv] ->
     shape horizontal = [kw; rh] ->
     0 < rv -> 0 < rh ->
     fst (cp_decomposition_conv_layer lib layer rank w)
     = Raise (AttributeError "'NoneType' object has no attribute 'data'") /\
     next_id (snd (cp_decomposition_conv_layer lib layer rank w))
     = next_id w + 4) /\
  (forall c u0 u1 U0 d0 V0 p0 U1 d1 V1 p1 r0 r1 core last first g'
          c0 c1 t0 t1 s0 s1,
     m = Conv2d c ->
     unfold lib (conv_weight c) 0 = Ok u0 ->
     unfold lib (conv_weight c) 1 = Ok u1 ->
     EVBMF lib u0 = Ok (U0, d0, V0, p0) ->
     EVBMF lib u1 = Ok (U1, d1, V1, p1) ->
     shape_at d0 0 = Ok r0 ->
     shape_at d1 1 = Ok r1 ->
     partial_tucker lib (conv_weight c) [0; 1] [r0; r1] InitSvd (lib_random w)
     = (Ok (core, [last; first]), g') ->
     shape_at core 0 = Ok c0 ->
     shape_at core 1 = Ok c1 ->
     shape last = [t0; t1] ->
     shape first = [s0; s1] ->
     fst (tucker_decomposition_conv_layer lib layer w)
     = Raise (AttributeError "'NoneType' object has no attribute 'data'") /\
     next_id (snd (tucker_decomposition_conv_layer lib layer w))
     = next_id w + 3) /\
  (forall lin U0 dg V0 p0 k U S_ V dm dn du dv r,
     m = Linear lin ->
     shape (linear_weight lin) = [dm; dn] ->
     EVBMF lib (linear_weight lin) = Ok (U0, dg, V0, p0) ->
     shape_at dg 0 = Ok k ->
     svd lib (linear_weight lin) = Ok (U, S_, V) ->
     shape U = [du; r] -> shape S_ = [r] -> shape V = [dv; r] ->
     fst (svd_decomposition_dense_layer lib layer w)
     = Raise (AttributeError "'NoneType' object has no attribute 'data'") /\
     next_id (snd (svd_decomposition_dense_layer lib layer w))
     = next_id w + 2).
Proof.
  intros Hlt Hl Hb. split; [|split; [|split]].
  - intros t. destruct t as [rank| |]; cbn [run_transformation].
    + exact (wp_run _ _ _ (cp_no_bias lib w layer rank m Hlt Hl Hb)).
    + exact (wp_run _ _ _ (tucker_no_bias lib w layer m Hlt Hl Hb)).
    + exact (wp_run _ _ _ (svd_no_bias lib w layer m Hlt Hl Hb)).
  - intros rank c last first vertical horizontal g' t0 t1 s0 s1 kh rv kw rh
      -> Hne Hpf Hs_last Hs_first Hs_vert Hs_hor Hrv Hrh.
    cbn in Hb. injection Hb as Hb.
    exact (wp_run _ _ _
             (cp_no_bias_exact lib w layer rank c last first vertical horizontal
                g' t0 t1 s0 s1 kh rv kw rh Hlt Hl Hb Hne Hpf Hs_last Hs_first
                Hs_vert Hs_hor Hrv Hrh)).
  - intros c u0 u1 U0 d0 V0 p0 U1 d1 V1 p1 r0 r1 core last first g'
      c0 c1 t0 t1 s0 s1 -> Hu0 Hu1 He0 He1 Hr0 Hr1 Hpt Hc0 Hc1 Hs_last Hs_first.
    cbn in Hb. injection Hb as Hb.
    exact (wp_run _ _ _
             (tucker_no_bias_exact lib w layer c u0 u1 U0 d0 V0 p0 U1 d1 V1 p1
                r0 r1 core last first g' c0 c1 t0 t1 s0 s1 Hlt Hl Hb Hu0 Hu1
                He0 He1 Hr0 Hr1 Hpt Hc0 Hc1 Hs_last Hs_first)).
  - intros lin U0 dg V0 p0 k U S_ V dm dn du dv r -> HW HE Hk Hsvd HsU HsS HsV.
    cbn in Hb. injection Hb as Hb.
    exact (wp_run _ _ _
             (svd_no_bias_exact lib w layer lin U0 dg V0 p0 k U S_ V dm dn du dv r
                Hlt Hl Hb HW HE Hk Hsvd HsU HsS HsV)).
Qed.

(** C8. When a call into the numeric libraries raises, in any of the three
    transformations or the two helpers, that call is the last one made (no
    second attempt, nothing after it), the exception it raised is the
    outcome of the function, unchanged, and no module has been built: the
    heap is the one the function started in. *)
Theorem library_failures_propagate w layer i (ev : @event K) e :
  layer < next_id w ->
  raised ev = Some e ->
  (forall t,
     new_calls w (snd (run_transformation lib t layer w)) !! i = Some ev ->
     fst (run_transformation lib t layer w) = Raise e /\
     heap (snd (run_transformation lib t layer w)) = heap w /\
     last (new_calls w (snd (run_transformation lib t layer w))) = Some ev) /\
  (new_calls w (snd (estimate_ranks_tucker lib layer w)) !! i = Some ev ->
   fst (estimate_ranks_tucker lib layer w) = Raise e /\
   heap (snd (estimate_ranks_tucker lib layer w)) = heap w /\
   last (new_calls w (snd (estimate_ranks_tucker lib layer w))) = Some ev) /\
  (new_calls w (snd (estimate_ranks_svd lib layer w)) !! i = Some ev ->
   fst (estimate_ranks_svd lib layer w) = Raise e /\
   heap (snd (estimate_ranks_svd lib layer w)) = heap w /\
   last (new_calls w (snd (estimate_ranks_svd lib layer w))) = Some ev).
Proof.
  intros Hlt Hr. split; [|split].
  - intros t Hi. destruct t as [rank| |]; cbn [run_transformation] in *.
    + exact (wp_run _ _ _ (cp_failure lib w layer rank Hlt) i ev e Hi Hr).
    + exact (wp_run _ _ _ (tucker_failure lib w layer Hlt) i ev e Hi Hr).
    + exact (wp_run _ _ _ (svd_failure lib w layer Hlt) i ev e Hi Hr).
  - intros Hi.
    exact (wp_run _ _ _ (estimate_ranks_tucker_failure lib w layer) i ev e Hi Hr).
  - intros Hi.
    exact (wp_run _ _ _ (estimate_ranks_svd_failure lib w layer) i ev e Hi Hr).
Qed.

(** C9. In every container returned by one of the three transformations,
    only the last layer has a bias, and that bias is the bias data of the
    input layer; every earlier layer was built with [bias = False]. *)
Theorem only_final_layer_has_bias (t : transformation) w layer ret w' :
  layer < next_id w ->
  run_transformation lib t layer w = (Ok ret, w') ->
  exists (m : @module K) b,
    heap w !! layer = Some m /\ module_bias m = Ok (Some b) /\
    only_last_has_bias b (heap w') ret.
Proof.
  intros Hlt Hrun. destruct t as [rank| |]; cbn [run_transformation] in Hrun.
  - exact (wp_result _ _ _ _ _ (cp_bias lib w layer rank Hlt) Hrun ret eq_refl).
  - exact (wp_result _ _ _ _ _ (tucker_bias lib w layer Hlt) Hrun ret eq_refl).
  - exact (wp_result _ _ _ _ _ (svd_bias lib w layer Hlt) Hrun ret eq_refl).
Qed.

(** C10. Every container [cp_decomposition_conv_layer] returns has four
    convolutions, all four with the stride of the input layer, the two
    pointwise ones (kernel 1x1) included, and the two depthwise ones with
    paddings [(layer.padding[0], 0)] and [(0, layer.padding[0])]; every
    container [tucker_decomposition_conv_layer] returns has stride 1 on its
    two pointwise layers and the stride of the input layer on the core
    convolution only. *)
Theorem strides_and_paddings w layer :
  layer < next_id w ->
  (forall rank ret w',
     cp_decomposition_conv_layer lib layer rank w = (Ok ret, w') ->
     exists c, heap w !! layer = Some (Conv2d c) /\
               has_cp_strides c (heap w') ret) /\
  (forall ret w',
     tucker_decomposition_conv_layer lib layer w = (Ok ret, w') ->
     exists c, heap w !! layer = Some (Conv2d c) /\
               has_tucker_strides c (heap w') ret).
Proof.
  intros Hlt. split.
  - intros rank ret w' Hrun.
    exact (wp_result _ _ _ _ _ (cp_strides lib w layer rank Hlt) Hrun ret eq_refl).
  - intros ret w' Hrun.
    exact (wp_result _ _ _ _ _ (tucker_strides lib w layer Hlt) Hrun ret eq_refl).
Qed.

End Claims.

(** * The claims on concrete layers *)

Import Demo.

Lemma demo_square_diag : square_diag demo_lib.
Proof.
  intros Y U d V p H. cbn [EVBMF demo_lib] in H. unfold demo_EVBMF in H.
  destruct (shape Y) as [|l [|m [|? ?]]]; try discriminate H.
  injection H as <- <- <- <-. reflexivity.
Qed.


Lemma cp_decomposition_conv_layer_structure_witness :
  exists ret w',
    cp_decomposition_conv_layer demo_lib 0 2 (world_with conv_layer 0)
    = (Ok ret, w') /\
    has_cp_structure conv_c 2 (heap w') ret.
Proof.
  apply (cp_decomposition_conv_layer_structure demo_lib
           (world_with conv_layer 0) 0 2 conv_c (fill [3] 7%Z)
           (fill [3; 2] 1%Z) (fill [2; 2] 1%Z) (fill [3; 2] 1%Z)
           (fill [3; 2] 1%Z) 0).
  - cbn. lia.
  - reflexivity.
  - reflexivity.
  - reflexivity.
  - lia.
  - vm_compute. reflexivity.
  - reflexivity.
  - reflexivity.
  - reflexivity.
  - reflexivity.
Defined.

(** C2 as stated fails: on a grouped convolution the first layer of the
    chain does not take the input channels of the layer; a layer without
    bias and the rank 0 give no container. *)
Lemma cp_decomposition_conv_layer_counterexample :
  ~ (exists ret w' c1 rest,
       cp_decomposition_conv_layer demo_lib 0 2 (world_with grouped_conv_layer 0)
       = (Ok ret, w') /\
       children_of (heap w') ret = Some (Conv2d c1 :: rest) /\
       in_channels c1 = in_channels grouped_c) /\
  ~ (exists ret w',
       cp_decomposition_conv_layer demo_lib 0 2 (world_with conv_layer_no_bias 0)
       = (Ok ret, w')) /\
  ~ (exists ret w',
       cp_decomposition_conv_layer demo_lib 0 0 (world_with conv_layer 0)
       = (Ok ret, w')).
Proof.
  split; [|split].
  - intros (ret & w' & c1 & rest & Hrun & Hch & Hin).
    assert (Hw : w' = snd (cp_decomposition_conv_layer demo_lib 0 2
                             (world_with grouped_conv_layer 0)))
      by (rewrite Hrun; reflexivity).
    assert (Hr : Ok ret = fst (cp_decomposition_conv_layer demo_lib 0 2
                                 (world_with grouped_conv_layer 0)))
      by (rewrite Hrun; reflexivity).
    vm_compute in Hr. injection Hr as ->. subst w'.
    vm_compute in Hch. injection Hch as <- _.
    vm_compute in Hin. discriminate Hin.
  - intros (ret & w' & Hrun). apply (f_equal fst) in Hrun.
    vm_compute in Hrun. discriminate Hrun.
  - intros (ret & w' & Hrun). apply (f_equal fst) in Hrun.
    vm_compute in Hrun. discriminate Hrun.
Qed.

Lemma tucker_decomposition_conv_layer_structure_witness :
  exists ret w',
    tucker_decomposition_conv_layer demo_lib 0 (world_with conv_layer 0)
    = (Ok ret, w') /\
    has_tucker_structure demo_lib conv_c 3 2 (fill [3; 2; 3; 3] 1%Z)
      (eye 3 3) (eye 2 2) (heap w') ret.
Proof.
  eapply (tucker_decomposition_conv_layer_structure demo_lib
            (world_with conv_layer 0) 0 conv_c (fill [3] 7%Z)
            _ _ (eye 3 3) (eye 3 3) (eye 18 3) [] (eye 2 2) (eye 2 2)
            (eye 27 2) [] 3 2 (fill [3; 2; 3; 3] 1%Z) (eye 3 3) (eye 2 2) 0).
  - cbn. lia.
  - reflexivity.
  - reflexivity.
  - reflexivity.
  - reflexivity.
  - reflexivity.
  - reflexivity.
  - reflexivity.
  - reflexivity.
  - reflexivity.
  - reflexivity.
  - reflexivity.
  - reflexivity.
  - reflexivity.
Defined.

(** C3 as stated fails: on a grouped convolution the first layer of the
    chain does not take the input channels of the layer, and a layer without
    bias gives no container. *)
Lemma tucker_decomposition_conv_layer_counterexample :
  ~ (exists ret w' c1 rest,
       tucker_decomposition_conv_layer demo_lib 0 (world_with grouped_conv_layer 0)
       = (Ok ret, w') /\
       children_of (heap w') ret = Some (Conv2d c1 :: rest) /\
       in_channels c1 = in_channels grouped_c) /\
  ~ (exists ret w',
       tucker_decomposition_conv_layer demo_lib 0 (world_with conv_layer_no_bias 0)
       = (Ok ret, w')).
Proof.
  split.
  - intros (ret & w' & c1 & rest & Hrun & Hch & Hin).
    assert (Hw : w' = snd (tucker_decomposition_conv_layer demo_lib 0
                             (world_with grouped_conv_layer 0)))
      by (rewrite Hrun; reflexivity).
    assert (Hr : Ok ret = fst (tucker_decomposition_conv_layer demo_lib 0
                                 (world_with grouped_conv_layer 0)))
      by (rewrite Hrun; reflexivity).
    vm_compute in Hr. injection Hr as ->. subst w'.
    vm_compute in Hch. injection Hch as <- _.
    vm_compute in Hin. discriminate Hin.
  - intros (ret & w' & Hrun). apply (f_equal fst) in Hrun.
    vm_compute in Hrun. discriminate Hrun.
Qed.

Lemma rank_estimation_witness :
  (fst (estimate_ranks_tucker demo_lib 0 (world_with conv_layer 0))
   = fst (estimate_ranks_by_unfolding demo_lib 0 (world_with conv_layer 0)) /\
   calls (snd (estimate_ranks_tucker demo_lib 0 (world_with conv_layer 0)))
   = calls (snd (estimate_ranks_by_unfolding demo_lib 0 (world_with conv_layer 0)))) /\
  (fst (estimate_ranks_svd demo_lib 0 (world_with conv_layer 0))
   = match EVBMF demo_lib (conv_weight conv_c) with
     | Ok (_, d, _, _) => shape_at d 0
     | Raise e => Raise e
     end /\
   new_calls (world_with conv_layer 0)
     (snd (estimate_ranks_svd demo_lib 0 (world_with conv_layer 0)))
   = [mkEvent (CallEVBMF (conv_weight conv_c))
        (outcome (EVBMF demo_lib (conv_weight conv_c)))]).
Proof.
  apply (rank_estimation demo_lib (world_with conv_layer 0) 0 conv_layer
           (conv_weight conv_c)).
  - exact demo_square_diag.
  - reflexivity.
  - reflexivity.
Defined.

(** C4 as stated fails for [estimate_ranks_svd]: on a dense layer it returns
    one number and makes one library call, EVBMF on the weight, where
    estimation by unfolding returns two numbers after two unfoldings and two
    calls of EVBMF. *)
Lemma estimate_ranks_svd_counterexample :
  fst (estimate_ranks_svd demo_lib 0 (world_with dense_layer 0)) = Ok 2 /\
  fst (estimate_ranks_by_unfolding demo_lib 0 (world_with dense_layer 0))
  = Ok [2; 2] /\
  map call (calls (snd (estimate_ranks_svd demo_lib 0 (world_with dense_layer 0))))
  = [CallEVBMF dense_weight] /\
  length (calls (snd (estimate_ranks_by_unfolding demo_lib 0
                        (world_with dense_layer 0)))) = 4 /\
  calls (snd (estimate_ranks_svd demo_lib 0 (world_with dense_layer 0)))
  <> calls (snd (estimate_ranks_by_unfolding demo_lib 0 (world_with dense_layer 0))).
Proof.
  split; [vm_compute; reflexivity|].
  split; [vm_compute; reflexivity|].
  split; [vm_compute; reflexivity|].
  split; [vm_compute; reflexivity|].
  intros H. apply (f_equal length) in H. vm_compute in H. discriminate H.
Qed.

Lemma demo_partial_tucker_svd_init X modes ranks (g1 g2 : nat) :
  fst (demo_partial_tucker X modes ranks InitSvd g1)
  = fst (demo_partial_tucker X modes ranks InitSvd g2).
Proof.
  unfold demo_partial_tucker.
  repeat match goal with
         | |- context [match ?x with _ => _ end] => destruct x
         end; reflexivity.
Qed.



Lemma input_layer_unchanged_witness :
  heap (snd (run_transformation demo_lib (CP 2) 0 (world_with conv_layer 0))) !! 0
  = Some conv_layer /\
  forall l, l < next_id (world_with conv_layer 0) ->
    heap (snd (run_transformation demo_lib (CP 2) 0 (world_with conv_layer 0))) !! l
    = heap (world_with conv_layer 0) !! l.
Proof.
  apply (input_layer_unchanged demo_lib (CP 2) (world_with conv_layer 0) 0
           conv_layer).
  - cbn. lia.
  - reflexivity.
Defined.

Lemma absent_bias_raises_witness :
  (forall t,
     exists e,
       fst (run_transformation demo_lib t 0 (world_with conv_layer_no_bias 0))
       = Raise e) /\
  (fst (cp_decomposition_conv_layer demo_lib 0 2 (world_with conv_layer_no_bias 0))
   = Raise (AttributeError "'NoneType' object has no attribute 'data'") /\
   next_id (snd (cp_decomposition_conv_layer demo_lib 0 2
                   (world_with conv_layer_no_bias 0)))
   = next_id (world_with conv_layer_no_bias 0) + 4) /\
  (fst (tucker_decomposition_conv_layer demo_lib 0 (world_with conv_layer_no_bias 0))
   = Raise (AttributeError "'NoneType' object has no attribute 'data'") /\
   next_id (snd (tucker_decomposition_conv_layer demo_lib 0
                   (world_with conv_layer_no_bias 0)))
   = next_id (world_with conv_layer_no_bias 0) + 3) /\
  (fst (svd_decomposition_dense_layer demo_lib 0 (world_with dense_layer_no_bias 0))
   = Raise (AttributeError "'NoneType' object has no attribute 'data'") /\
   next_id (snd (svd_decomposition_dense_layer demo_lib 0
                   (world_with dense_layer_no_bias 0)))
   = next_id (world_with dense_layer_no_bias 0) + 2).
Proof.
  destruct (absent_bias_raises demo_lib (world_with conv_layer_no_bias 0) 0
              conv_layer_no_bias ltac:(cbn; lia) eq_refl eq_refl)
    as (Hany & Hcp & Htucker & _).
  destruct (absent_bias_raises demo_lib (world_with dense_layer_no_bias 0) 0
              dense_layer_no_bias ltac:(cbn; lia) eq_refl eq_refl)
    as (_ & _ & _ & Hsvd).
  split; [exact Hany|]. split; [|split].
  - apply (Hcp 2 conv_c_no_bias (fill [3; 2] 1%Z) (fill [2; 2] 1%Z)
             (fill [3; 2] 1%Z) (fill [3; 2] 1%Z) 0 3 2 2 2 3 2 3 2).
    + reflexivity.
    + discriminate.
    + vm_compute. reflexivity.
    + reflexivity.
    + reflexivity.
    + reflexivity.
    + reflexivity.
    + lia.
    + lia.
  - eapply (Htucker conv_c_no_bias _ _ (eye 3 3) (eye 3 3) (eye 18 3) []
              (eye 2 2) (eye 2 2) (eye 27 2) [] 3 2 (fill [3; 2; 3; 3] 1%Z)
              (eye 3 3) (eye 2 2) 0 3 2 3 3 2 2).
    + reflexivity.
    + reflexivity.
    + reflexivity.
    + reflexivity.
    + reflexivity.
    + reflexivity.
    + reflexivity.
    + reflexivity.
    + reflexivity.
    + reflexivity.
    + reflexivity.
    + reflexivity.
  - apply (Hsvd (mkLinear 3 2 dense_weight None) (eye 2 2) (eye 2 2) (eye 3 2) []
             2 (eye 2 2) (fill [2] 1%Z) (eye 3 2) 2 3 2 3 2).
    + reflexivity.
    + reflexivity.
    + reflexivity.
    + reflexivity.
    + reflexivity.
    + reflexivity.
    + reflexivity.
    + reflexivity.
Defined.

(** C7 as stated fails: on layers built with [bias = False] the three
    transformations raise [AttributeError] at [layer.bias.data]. *)
Lemma absent_bias_counterexample :
  fst (cp_decomposition_conv_layer demo_lib 0 2 (world_with conv_layer_no_bias 0))
  = Raise (AttributeError "'NoneType' object has no attribute 'data'") /\
  fst (tucker_decomposition_conv_layer demo_lib 0 (world_with conv_layer_no_bias 0))
  = Raise (AttributeError "'NoneType' object has no attribute 'data'") /\
  fst (svd_decomposition_dense_layer demo_lib 0 (world_with dense_layer_no_bias 0))
  = Raise (AttributeError "'NoneType' object has no attribute 'data'").
Proof.
  split; [vm_compute; reflexivity|].
  split; [vm_compute; reflexivity|].
  vm_compute; reflexivity.
Qed.

Lemma library_failures_propagate_witness :
  fst (run_transformation demo_lib (CP 100) 0 (world_with conv_layer 0))
  = Raise (LibraryError "rank exceeds the tensor's dimensions") /\
  heap (snd (run_transformation demo_lib (CP 100) 0 (world_with conv_layer 0)))
  = heap (world_with conv_layer 0) /\
  last (new_calls (world_with conv_layer 0)
          (snd (run_transformation demo_lib (CP 100) 0 (world_with conv_layer 0))))
  = Some (mkEvent (CallParafac (conv_weight conv_c) 100 InitSvd)
            (Some (LibraryError "rank exceeds the tensor's dimensions"))).
Proof.
  apply (proj1 (library_failures_propagate demo_lib (world_with conv_layer 0) 0 0
                  (mkEvent (CallParafac (conv_weight conv_c) 100 InitSvd)
                     (Some (LibraryError "rank exceeds the tensor's dimensions")))
                  (LibraryError "rank exceeds the tensor's dimensions")
                  ltac:(cbn; lia) eq_refl) (CP 100)).
  vm_compute. reflexivity.
Defined.

Lemma only_final_layer_has_bias_witness :
  exists (m : @module Zs) b,
    heap (world_with dense_layer 0) !! 0 = Some m /\
    module_bias m = Ok (Some b) /\
    only_last_has_bias b
      (heap (snd (run_transformation demo_lib SVD 0 (world_with dense_layer 0)))) 3.
Proof.
  apply (only_final_layer_has_bias demo_lib SVD (world_with dense_layer 0) 0 3
           (snd (run_transformation demo_lib SVD 0 (world_with dense_layer 0)))).
  - cbn. lia.
  - apply pair_eta_fst. vm_compute. reflexivity.
Defined.

Lemma strides_and_paddings_witness :
  (exists c, heap (world_with conv_layer 0) !! 0 = Some (Conv2d c) /\
     has_cp_strides c
       (heap (snd (cp_decomposition_conv_layer demo_lib 0 2
                     (world_with conv_layer 0)))) 5) /\
  (exists c, heap (world_with conv_layer 0) !! 0 = Some (Conv2d c) /\
     has_tucker_strides c
       (heap (snd (tucker_decomposition_conv_layer demo_lib 0
                     (world_with conv_layer 0)))) 4).
Proof.
  destruct (strides_and_paddings demo_lib (world_with conv_layer 0) 0
              ltac:(cbn; lia)) as [Hcp Htucker].
  split.
  - apply (Hcp 2). apply pair_eta_fst. vm_compute. reflexivity.
  - apply Htucker. apply pair_eta_fst. vm_compute. reflexivity.
Defined.

(** * Further properties of the code

    What the five functions do beyond the claims above: the library calls
    they make and in which order, the values they store in the new layers,
    and their behaviour on the inputs they were not written for. *)

(** ** More on tensors *)

Section MoreTensors.

Context {K : scalar_ring}.
Implicit Types (a b x : @ndarray K).

Add Ring K_ring_entries : (scalar_ring_theory K).

(** A sum whose only non-zero term is the one at [i]. *)
Lemma ssum_delta n i (c : K) :
  i < n -> ssum n (fun l => if Nat.eqb l i then c else szero) = c.
Proof.
  induction n as [|n IH]; intros Hi; [lia|].
  cbn [ssum]. destruct (Nat.eq_dec i n) as [->|Hne].
  - rewrite Nat.eqb_refl.
    rewrite (ssum_ext n _ (fun _ => szero)).
    + rewrite ssum_zero. ring.
    + intros l Hl. destruct (Nat.eqb_spec l n); [lia | reflexivity].
  - rewrite IH by lia. destruct (Nat.eqb_spec n i); [lia | ring].
Qed.

Lemma get1_take s k a i :
  i < k -> get1 (mkArray s (take k (data a))) i = get1 a i.
Proof.
  intros Hi. unfold get1. cbn [data].
  rewrite nth_firstn. destruct (Nat.ltb_spec i k); [reflexivity | lia].
Qed.

Lemma map_get1_seq b : map (get1 b) (seq 0 (length (data b))) = data b.
Proof.
  unfold get1. apply (nth_ext _ _ szero szero).
  - rewrite length_map, length_seq. reflexivity.
  - intros i Hi. rewrite length_map, length_seq in Hi.
    rewrite (nth_indep _ szero (nth 0 (data b) szero))
      by (rewrite length_map, length_seq; exact Hi).
    rewrite (map_nth (fun p => nth p (data b) szero)), seq_nth by exact Hi.
    reflexivity.
Qed.

Lemma length_tabulate2 r c (f : nat -> nat -> K) :
  length (tabulate2 r c f) = r * c.
Proof.
  unfold tabulate2. generalize 0 at 2 as s.
  induction r as [|r IH]; intros s; cbn [seq flat_map]; [reflexivity|].
  rewrite length_app, length_map, length_seq, IH. reflexivity.
Qed.

(** Entries of the 4-D weights the transformations build from matrices. *)
Lemma get4_pointwise (f : K -> K) r c (g : nat -> nat -> K) i j :
  i < r -> j < c ->
  get4 (mkArray [r; c; 1; 1] (map f (tabulate2 r c g))) i j 0 0 = f (g i j).
Proof.
  intros Hi Hj. unfold get4. cbn [shape data].
  replace (((i * c + j) * 1 + 0) * 1 + 0) with (i * c + j) by lia.
  rewrite (nth_indep _ szero (f szero))
    by (rewrite length_map, length_tabulate2; nia).
  rewrite map_nth, nth_tabulate2 by assumption. reflexivity.
Qed.

Lemma get4_vertical (f : K -> K) r c (g : nat -> nat -> K) i j :
  i < r -> j < c ->
  get4 (mkArray [r; 1; c; 1] (map f (tabulate2 r c g))) i 0 j 0 = f (g i j).
Proof.
  intros Hi Hj. unfold get4. cbn [shape data].
  replace (((i * 1 + 0) * c + j) * 1 + 0) with (i * c + j) by lia.
  rewrite (nth_indep _ szero (f szero))
    by (rewrite length_map, length_tabulate2; nia).
  rewrite map_nth, nth_tabulate2 by assumption. reflexivity.
Qed.

Lemma get4_horizontal (f : K -> K) r c (g : nat -> nat -> K) i j :
  i < r -> j < c ->
  get4 (mkArray [r; 1; 1; c] (map f (tabulate2 r c g))) i 0 0 j = f (g i j).
Proof.
  intros Hi Hj. unfold get4. cbn [shape data].
  replace (((i * 1 + 0) * 1 + 0) * c + j) with (i * c + j) by lia.
  rewrite (nth_indep _ szero (f szero))
    by (rewrite length_map, length_tabulate2; nia).
  rewrite map_nth, nth_tabulate2 by assumption. reflexivity.
Qed.

Lemma get4_matrix (f : K -> K) a r c i j :
  shape a = [r; c] -> length (data a) = r * c -> i < r -> j < c ->
  get4 (mkArray [r; c; 1; 1] (map f (data a))) i j 0 0 = f (get2 a i j).
Proof.
  intros Hs Hlen Hi Hj. unfold get4, get2. rewrite Hs. cbn [shape data nth].
  replace (((i * c + j) * 1 + 0) * 1 + 0) with (i * c + j) by lia.
  rewrite (nth_indep _ szero (f szero)) by (rewrite length_map, Hlen; nia).
  rewrite map_nth. reflexivity.
Qed.

End MoreTensors.

(** Consecutive locations are pairwise distinct. *)
Ltac fresh_nodup :=
  repeat (apply NoDup_cons_2; [rewrite ?elem_of_cons, elem_of_nil; lia|]);
  apply NoDup_nil_2.

Ltac fresh_children Hret Hnext :=
  eexists; split; [exact Hret|];
  split; [reflexivity|];
  split; [fresh_nodup|];
  split; [repeat (apply Forall_cons_2; [lia|]); apply Forall_nil_2|];
  split; [lia|]; split; [cbn; lia | exact Hnext].

(** ** More lemmas on the transformations *)

Section MoreRuns.

Context {K : scalar_ring} {rng : Type}.
Variable lib : @library K rng.

Implicit Types (w : @world K rng) (l layer : loc).

Add Ring K_ring_runs : (scalar_ring_theory K).

(** *** The library calls of a run *)

Lemma cp_call w layer rank (m : @module K) X :
  layer < next_id w ->
  heap w !! layer = Some m ->
  module_weight m = Ok X ->
  shape X <> [] ->
  wp (cp_decomposition_conv_layer lib layer rank)
     (fun _ w' =>
        new_calls w w'
        = [mkEvent (CallParafac X rank (cp_init X))
             (outcome (fst (parafac lib X rank (cp_init X) (lib_random w))))] /\
        lib_random w' = snd (parafac lib X rank (cp_init X) (lib_random w)) /\
        stdout w'
        = stdout w ++ [PyModule m; PyInt rank]
            :: (if 256 <=? list_max (shape X)
                then [[PyStr "Init random"]] else [])) w.
Proof.
  intros Hlt Hl HX Hne.
  destruct w as [h n g t o cs]; cbn [next_id heap lib_random stdout] in *.
  unfold cp_init.
  destruct (256 <=? list_max (shape X)) eqn:Hsize.
  all: destruct (shape X) as [|d rest] eqn:HsX; [contradiction|].
  all: rewrite <- HsX in Hsize.
  all: wp_go.
  all: new_calls_tail.
  all: rewrite <- ?app_assoc; cbn [app].
  all: try rewrite Er; cbn [outcome fst snd].
  all: auto.
Qed.

Lemma tucker_calls w layer :
  layer < next_id w ->
  wp (tucker_decomposition_conv_layer lib layer)
     (fun res w' => forall ret, res = Ok ret ->
        exists (m : @module K) X u0 u1 U0 d0 V0 p0 U1 d1 V1 p1 r0 r1,
          heap w !! layer = Some m /\ module_weight m = Ok X /\
          unfold lib X 0 = Ok u0 /\ unfold lib X 1 = Ok u1 /\
          EVBMF lib u0 = Ok (U0, d0, V0, p0) /\
          EVBMF lib u1 = Ok (U1, d1, V1, p1) /\
          shape_at d0 0 = Ok r0 /\ shape_at d1 1 = Ok r1 /\
          new_calls w w'
          = [mkEvent (CallUnfold X 0) None; mkEvent (CallUnfold X 1) None;
             mkEvent (CallEVBMF u0) None; mkEvent (CallEVBMF u1) None;
             mkEvent (CallPartialTucker X [0; 1] [r0; r1] InitSvd) None]) w.
Proof.
  intros Hlt. start_run w layer; [destruct m0 as [c|lin|cs0] |].
  all: wp_go.
  all: intros ret Hret; try discriminate Hret.
  all: eexists _, _, _, _, _, _, _, _, _, _, _, _, _, _.
  all: split; [reflexivity|]; split; [reflexivity|].
  all: split; [eassumption|]; split; [eassumption|].
  all: split; [eassumption|]; split; [eassumption|].
  all: split; [eassumption|]; split; [eassumption|].
  all: new_calls_tail; reflexivity.
Qed.

Lemma svd_calls w layer :
  layer < next_id w ->
  wp (svd_decomposition_dense_layer lib layer)
     (fun res w' => forall ret, res = Ok ret ->
        exists (m : @module K) X U0 d V0 p0 k U S_ V,
          heap w !! layer = Some m /\ module_weight m = Ok X /\
          EVBMF lib X = Ok (U0, d, V0, p0) /\ shape_at d 0 = Ok k /\
          svd lib X = Ok (U, S_, V) /\
          new_calls w w'
          = [mkEvent (CallEVBMF X) None; mkEvent (CallSvd X) None]) w.
Proof.
  intros Hlt. start_run w layer; [destruct m0 as [c|lin|cs0] |].
  all: wp_go.
  all: intros ret Hret; try discriminate Hret.
  all: eexists _, _, _, _, _, _, _, _, _, _.
  all: split; [reflexivity|]; split; [reflexivity|].
  all: split; [eassumption|]; split; [eassumption|].
  all: split; [eassumption|].
  all: new_calls_tail; reflexivity.
Qed.

(** *** Inputs the functions were not written for *)

Lemma cp_factor_count w layer rank (m : @module K) X fs g' :
  layer < next_id w ->
  heap w !! layer = Some m ->
  module_weight m = Ok X ->
  shape X <> [] ->
  parafac lib X rank (cp_init X) (lib_random w) = (Ok fs, g') ->
  length fs <> 4 ->
  wp (cp_decomposition_conv_layer lib layer rank)
     (fun res w' =>
        res = Raise (unpack_error 4 (length fs)) /\
        heap w' = heap w /\ next_id w' = next_id w) w.
Proof.
  intros Hlt Hl HX Hne Hpf Hlen.
  destruct w as [h n g t o cs]; cbn [next_id heap lib_random] in *.
  unfold cp_init in Hpf.
  destruct (256 <=? list_max (shape X)) eqn:Hsize.
  all: destruct (shape X) as [|d rest] eqn:HsX; [contradiction|].
  all: rewrite <- HsX in Hsize.
  all: destruct fs as [|f1 [|f2 [|f3 [|f4 [|f5 fs]]]]]; cbn [length] in Hlen;
         try lia.
  all: wp_go.
  all: auto.
Qed.

Lemma cp_zero_groups w layer rank c last first vertical horizontal g' s0 s1 kh :
  layer < next_id w ->
  heap w !! layer = Some (Conv2d c) ->
  shape (conv_weight c) <> [] ->
  parafac lib (conv_weight c) rank (cp_init (conv_weight c)) (lib_random w)
  = (Ok [last; first; vertical; horizontal], g') ->
  shape first = [s0; s1] ->
  shape vertical = [kh; 0] ->
  wp (cp_decomposition_conv_layer lib layer rank)
     (fun res w' =>
        res = Raise (ValueError "groups must be a positive integer")) w.
Proof.
  intros Hlt Hl Hne Hpf Hf Hv.
  destruct w as [h n g t o cs]; cbn [next_id heap lib_random] in *.
  unfold cp_init in Hpf.
  destruct (256 <=? list_max (shape (conv_weight c))) eqn:Hsize.
  all: destruct (shape (conv_weight c)) as [|d rest] eqn:HsX; [contradiction|].
  all: rewrite <- HsX in Hsize.
  all: wp_go.
  all: reflexivity.
Qed.

Lemma cp_on_linear w layer rank (lin : @linear K) :
  layer < next_id w ->
  heap w !! layer = Some (Linear lin) ->
  wp (cp_decomposition_conv_layer lib layer rank)
     (fun res w' =>
        (exists e, res = Raise e) /\ heap w' = heap w /\ next_id w' = next_id w) w.
Proof.
  intros Hlt Hl.
  destruct w as [h n g t o cs]; cbn [next_id heap] in *.
  wp_go.
  all: eauto.
Qed.

Lemma tucker_on_linear w layer (lin : @linear K) :
  layer < next_id w ->
  heap w !! layer = Some (Linear lin) ->
  wp (tucker_decomposition_conv_layer lib layer)
     (fun res w' =>
        (exists e, res = Raise e) /\ heap w' = heap w /\ next_id w' = next_id w) w.
Proof.
  intros Hlt Hl.
  destruct w as [h n g t o cs]; cbn [next_id heap] in *.
  wp_go.
  all: eauto.
Qed.

Lemma cp_container w layer rank cs0 :
  heap w !! layer = Some (Sequential (K := K) cs0) ->
  wp (cp_decomposition_conv_layer lib layer rank)
     (fun res w' =>
        res = Raise (AttributeError "'Sequential' object has no attribute 'weight'") /\
        new_calls w w' = [] /\ heap w' = heap w) w.
Proof.
  intros Hl. destruct w as [h n g t o cs]; cbn [next_id heap] in *.
  wp_go. new_calls_tail. auto.
Qed.

Lemma tucker_container w layer cs0 :
  heap w !! layer = Some (Sequential (K := K) cs0) ->
  wp (tucker_decomposition_conv_layer lib layer)
     (fun res w' =>
        res = Raise (AttributeError "'Sequential' object has no attribute 'weight'") /\
        new_calls w w' = [] /\ heap w' = heap w) w.
Proof.
  intros Hl. destruct w as [h n g t o cs]; cbn [next_id heap] in *.
  wp_go. new_calls_tail. auto.
Qed.

Lemma svd_container w layer cs0 :
  heap w !! layer = Some (Sequential (K := K) cs0) ->
  wp (svd_decomposition_dense_layer lib layer)
     (fun res w' =>
        res = Raise (AttributeError "'Sequential' object has no attribute 'weight'") /\
        new_calls w w' = [] /\ heap w' = heap w) w.
Proof.
  intros Hl. destruct w as [h n g t o cs]; cbn [next_id heap] in *.
  wp_go. new_calls_tail. auto.
Qed.

(** *** The objects a run allocates *)

Lemma cp_fresh w layer rank :
  layer < next_id w ->
  wp (cp_decomposition_conv_layer lib layer rank)
     (fun r w' => forall ret, r = Ok ret ->
        heap w' !! ret
        = Some (Sequential [next_id w; S (next_id w); S (S (next_id w));
                            S (S (S (next_id w)))]) /\
        ret = S (S (S (S (next_id w)))) /\ next_id w' = S ret) w.
Proof.
  intros Hlt. start_run w layer; [destruct m0 as [c|lin|cs0] |].
  all: wp_go.
  all: intros ret Hret; try discriminate Hret; injection Hret as <-.
  all: split; [heap_lookup; reflexivity | split; reflexivity].
Qed.

Lemma tucker_fresh w layer :
  layer < next_id w ->
  wp (tucker_decomposition_conv_layer lib layer)
     (fun r w' => forall ret, r = Ok ret ->
        heap w' !! ret
        = Some (Sequential [next_id w; S (next_id w); S (S (next_id w))]) /\
        ret = S (S (S (next_id w))) /\ next_id w' = S ret) w.
Proof.
  intros Hlt. start_run w layer; [destruct m0 as [c|lin|cs0] |].
  all: wp_go.
  all: intros ret Hret; try discriminate Hret; injection Hret as <-.
  all: split; [heap_lookup; reflexivity | split; reflexivity].
Qed.

Lemma svd_fresh w layer :
  layer < next_id w ->
  wp (svd_decomposition_dense_layer lib layer)
     (fun r w' => forall ret, r = Ok ret ->
        heap w' !! ret = Some (Sequential [next_id w; S (next_id w)]) /\
        ret = S (S (next_id w)) /\ next_id w' = S ret) w.
Proof.
  intros Hlt. start_run w layer; [destruct m0 as [c|lin|cs0] |].
  all: wp_go.
  all: intros ret Hret; try discriminate Hret; injection Hret as <-.
  all: split; [heap_lookup; reflexivity | split; reflexivity].
Qed.

(** *** Hyper-parameters that do not depend on the factors *)

Lemma cp_dilation_groups w layer rank :
  layer < next_id w ->
  wp (cp_decomposition_conv_layer lib layer rank)
     (fun res w' => forall ret, res = Ok ret ->
        exists c c1 c2 c3 c4,
          heap w !! layer = Some (Conv2d c) /\
          children_of (heap w') ret
          = Some [Conv2d c1; Conv2d c2; Conv2d c3; Conv2d c4] /\
          (dilation c1 = dilation c /\ dilation c2 = dilation c /\
           dilation c3 = dilation c /\ dilation c4 = dilation c) /\
          (groups c1 = 1 /\ groups c4 = 1 /\
           padding c1 = (0, 0) /\ padding c4 = (0, 0)) /\
          (groups c2 = in_channels c2 /\ out_channels c2 = in_channels c2 /\
           groups c3 = in_channels c3 /\ out_channels c3 = in_channels c3)) w.
Proof.
  intros Hlt. start_run w layer; [destruct m0 as [c|lin|cs0] |].
  all: wp_go.
  all: intros ret Hret; try discriminate Hret; injection Hret as <-.
  all: eexists _, _, _, _, _; split; [reflexivity|].
  all: split; [solve_children|].
  all: cbn [dilation groups padding in_channels out_channels]; auto 20.
Qed.

Lemma tucker_dilation_groups w layer :
  layer < next_id w ->
  wp (tucker_decomposition_conv_layer lib layer)
     (fun res w' => forall ret, res = Ok ret ->
        exists c c1 c2 c3,
          heap w !! layer = Some (Conv2d c) /\
          children_of (heap w') ret = Some [Conv2d c1; Conv2d c2; Conv2d c3] /\
          (dilation c1 = dilation c /\ dilation c2 = dilation c /\
           dilation c3 = dilation c) /\
          (groups c1 = 1 /\ groups c2 = 1 /\ groups c3 = 1) /\
          (padding c1 = (0, 0) /\ padding c2 = padding c /\ padding c3 = (0, 0)) /\
          kernel_size c2 = kernel_size c) w.
Proof.
  intros Hlt. start_run w layer; [destruct m0 as [c|lin|cs0] |].
  all: wp_go.
  all: intros ret Hret; try discriminate Hret; injection Hret as <-.
  all: eexists _, _, _, _; split; [reflexivity|].
  all: split; [solve_children|].
  all: cbn [dilation groups padding kernel_size]; auto 20.
Qed.

(** *** The values stored in the new layers *)

Lemma cp_weights w layer rank c b last first vertical horizontal g' :
  layer < next_id w ->
  heap w !! layer = Some (Conv2d c) ->
  shape (conv_weight c)
  = [out_channels c; in_channels c / groups c;
     fst (kernel_size c); snd (kernel_size c)] ->
  conv_bias c = Some b ->
  0 < rank ->
  parafac lib (conv_weight c) rank (cp_init (conv_weight c)) (lib_random w)
  = (Ok [last; first; vertical; horizontal], g') ->
  shape last = [out_channels c; rank] ->
  shape first = [in_channels c / groups c; rank] ->
  shape vertical = [fst (kernel_size c); rank] ->
  shape horizontal = [snd (kernel_size c); rank] ->
  length (data last) = out_channels c * rank ->
  wp (cp_decomposition_conv_layer lib layer rank)
     (fun res w' => exists ret,
        res = Ok ret /\
        exists c1 c2 c3 c4,
          children_of (heap w') ret
          = Some [Conv2d c1; Conv2d c2; Conv2d c3; Conv2d c4] /\
          (forall r s, r < rank -> s < in_channels c / groups c ->
             get4 (conv_weight c1) r s 0 0 = float32 lib (get2 first s r)) /\
          (forall r y, r < rank -> y < fst (kernel_size c) ->
             get4 (conv_weight c2) r 0 y 0 = float32 lib (get2 vertical y r)) /\
          (forall r x, r < rank -> x < snd (kernel_size c) ->
             get4 (conv_weight c3) r 0 0 x = float32 lib (get2 horizontal x r)) /\
          (forall t r, t < out_channels c -> r < rank ->
             get4 (conv_weight c4) t r 0 0 = float32 lib (get2 last t r))) w.
Proof.
  intros Hlt Hl HX Hb Hrank Hpf Hs_last Hs_first Hs_vert Hs_hor Hlen.
  destruct w as [h n g t o cs]; cbn [next_id heap lib_random] in *.
  assert (Hr0 : (rank =? 0) = false) by (apply Nat.eqb_neq; lia).
  assert (Hbd : bias_data (conv_bias c) = Ok b) by (rewrite Hb; reflexivity).
  unfold cp_init in Hpf.
  destruct (256 <=? list_max (shape (conv_weight c))) eqn:Hsize.
  all: wp_go.
  all: eexists; split; [reflexivity|].
  all: eexists _, _, _, _; split; [solve_children|].
  all: cbn [conv_weight]; unfold from_numpy, np_float32; cbn [shape data].
  all: split; [intros; rewrite get4_pointwise by assumption; reflexivity|].
  all: split; [intros; rewrite get4_vertical by assumption; reflexivity|].
  all: split; [intros; rewrite get4_horizontal by assumption; reflexivity|].
  all: intros; apply get4_matrix; assumption.
Qed.

Lemma svd_layers w layer lin b U0 dg V0 p0 k U S_ V dm dn r :
  layer < next_id w ->
  heap w !! layer = Some (Linear lin) ->
  shape (linear_weight lin) = [dm; dn] ->
  linear_bias lin = Some b ->
  EVBMF lib (linear_weight lin) = Ok (U0, dg, V0, p0) ->
  shape_at dg 0 = Ok k ->
  svd lib (linear_weight lin) = Ok (U, S_, V) ->
  shape U = [dm; r] -> shape S_ = [r] -> shape V = [dn; r] ->
  wp (svd_decomposition_dense_layer lib layer)
     (fun res w' => exists ret,
        res = Ok ret /\
        exists lv lu,
          children_of (heap w') ret = Some [Linear lv; Linear lu] /\
          ((in_features lv, out_features lv) = (k, dn) /\
           shape (linear_weight lv) = [Nat.min k r; dn] /\
           (in_features lu, out_features lu) = (dm, k) /\
           shape (linear_weight lu) = [dm; Nat.min k r]) /\
          (forall i j, i < Nat.min k r -> j < dn ->
             get2 (linear_weight lv) i j = get2 V j i) /\
          (forall p i, p < dm -> i < Nat.min k r ->
             get2 (linear_weight lu) p i = smul (get2 U p i) (get1 S_ i))) w.
Proof.
  intros Hlt Hl HW Hb HE Hk Hsvd HsU HsS HsV.
  destruct w as [h n0 g t o cs]; cbn [next_id heap lib_random] in *.
  assert (Hbd : bias_data (linear_bias lin) = Ok b) by (rewrite Hb; reflexivity).
  wp_go.
  eexists; split; [reflexivity|].
  eexists _, _; split; [solve_children|].
  cbn [in_features out_features linear_weight shape].
  split; [auto|].
  split.
  - intros i j Hi Hj.
    rewrite get2_tabulate2 by assumption.
    apply get2_tabulate2; assumption.
  - intros p i Hp Hi.
    rewrite get2_tabulate2 by assumption.
    rewrite (ssum_ext _ _
               (fun l => if Nat.eqb l i
                         then smul (get2 U p i) (get1 S_ i) else szero)).
    + apply ssum_delta. exact Hi.
    + intros l Hl'.
      rewrite !get2_tabulate2 by assumption.
      destruct (Nat.eqb_spec l i) as [->|Hne]; [|ring].
      rewrite get1_take by assumption. reflexivity.
Qed.

Lemma svd_rank_zero w layer lin b U0 dg V0 p0 U S_ V dm dn r :
  layer < next_id w ->
  heap w !! layer = Some (Linear lin) ->
  shape (linear_weight lin) = [dm; dn] ->
  linear_bias lin = Some b ->
  shape b = [dm] ->
  length (data b) = dm ->
  EVBMF lib (linear_weight lin) = Ok (U0, dg, V0, p0) ->
  shape_at dg 0 = Ok 0 ->
  svd lib (linear_weight lin) = Ok (U, S_, V) ->
  shape U = [dm; r] -> shape S_ = [r] -> shape V = [dn; r] ->
  wp (svd_decomposition_dense_layer lib layer)
     (fun res w' => exists ret,
        res = Ok ret /\
        forall depth x, 2 <= depth -> shape x = [dn] ->
          forward lib depth (heap w') ret x = Ok b) w.
Proof.
  intros Hlt Hl HW Hb Hsb Hlen HE Hk Hsvd HsU HsS HsV.
  destruct w as [h n0 g t o cs]; cbn [next_id heap lib_random] in *.
  assert (Hbd : bias_data (linear_bias lin) = Ok b) by (rewrite Hb; reflexivity).
  wp_go.
  eexists; split; [reflexivity|].
  intros depth x Hd Hx. cbn [heap].
  erewrite forward_two_linear;
    [ | exact Hd | heap_lookup; reflexivity | heap_lookup; reflexivity
      | heap_lookup; reflexivity ].
  cbn [linear_weight linear_bias Nat.min].
  unfold F_linear. cbn [shape]. rewrite Hx, Nat.eqb_refl.
  cbn [shape Nat.eqb seq map]. rewrite Hsb, Nat.eqb_refl.
  destruct b as [sb db]. cbn [shape data] in Hsb, Hlen. subst sb.
  f_equal. f_equal. subst dm.
  transitivity (map (get1 (mkArray [length db] db)) (seq 0 (length db))).
  - apply map_ext. intros p. cbn [ssum]. ring.
  - apply (map_get1_seq (mkArray [length db] db)).
Qed.

End MoreRuns.

(** ** The properties *)

Section Properties.

Context {K : scalar_ring} {rng : Type}.
Variable lib : @library K rng.

Implicit Types (w : @world K rng) (l layer : loc).

(** X1. [svd_decomposition_dense_layer] declares its two layers with the
    feature counts the other way round: [V_layer] is built as
    [nn.Linear(rank, X.shape[1])] and [U_layer] as
    [nn.Linear(X.shape[0], rank)], so for a weight of shape [(m, n)] and an
    estimated rank [k] the attributes read [in_features = k],
    [out_features = n] and [in_features = m], [out_features = k], while the
    weights stored in them have shapes [(min(k, r), n)] and [(m, min(k, r))],
    [r] being the number of singular values: the first layer takes [n]
    features, not [k], and a rank above [r] is cut to [r] by the slices. *)
Theorem svd_layers_declared_features
  w layer lin b U0 dg V0 p0 k U S_ V dm dn r :
  layer < next_id w ->
  heap w !! layer = Some (Linear lin) ->
  shape (linear_weight lin) = [dm; dn] ->
  linear_bias lin = Some b ->
  EVBMF lib (linear_weight lin) = Ok (U0, dg, V0, p0) ->
  shape_at dg 0 = Ok k ->
  svd lib (linear_weight lin) = Ok (U, S_, V) ->
  shape U = [dm; r] -> shape S_ = [r] -> shape V = [dn; r] ->
  exists ret w' lv lu,
    svd_decomposition_dense_layer lib layer w = (Ok ret, w') /\
    children_of (heap w') ret = Some [Linear lv; Linear lu] /\
    (in_features lv, out_features lv) = (k, dn) /\
    shape (linear_weight lv) = [Nat.min k r; dn] /\
    (in_features lu, out_features lu) = (dm, k) /\
    shape (linear_weight lu) = [dm; Nat.min k r].
Proof.
  intros Hlt Hl HW Hb HE Hk Hsvd HsU HsS HsV.
  destruct (wp_returns _ _ _
              (svd_layers lib w layer lin b U0 dg V0 p0 k U S_ V dm dn r
                 Hlt Hl HW Hb HE Hk Hsvd HsU HsS HsV))
    as (ret & w' & Hrun & lv & lu & Hch & (H1 & H2 & H3 & H4) & _).
  exists ret, w', lv, lu. auto 10.
Qed.

(** X2. The weights [svd_decomposition_dense_layer] stores, entry by entry:
    row [i] of [V_layer.weight] is column [i] of [V], and column [i] of
    [U_layer.weight] is column [i] of [U] scaled by the singular value
    [S[i]], which is what [torch.mm(Uk, torch.diag(Sk))] comes to. *)
Theorem svd_weights_entries
  w layer lin b U0 dg V0 p0 k U S_ V dm dn r :
  layer < next_id w ->
  heap w !! layer = Some (Linear lin) ->
  shape (linear_weight lin) = [dm; dn] ->
  linear_bias lin = Some b ->
  EVBMF lib (linear_weight lin) = Ok (U0, dg, V0, p0) ->
  shape_at dg 0 = Ok k ->
  svd lib (linear_weight lin) = Ok (U, S_, V) ->
  shape U = [dm; r] -> shape S_ = [r] -> shape V = [dn; r] ->
  exists ret w' lv lu,
    svd_decomposition_dense_layer lib layer w = (Ok ret, w') /\
    children_of (heap w') ret = Some [Linear lv; Linear lu] /\
    (forall i j, i < Nat.min k r -> j < dn ->
       get2 (linear_weight lv) i j = get2 V j i) /\
    (forall p i, p < dm -> i < Nat.min k r ->
       get2 (linear_weight lu) p i = smul (get2 U p i) (get1 S_ i)).
Proof.
  intros Hlt Hl HW Hb HE Hk Hsvd HsU HsS HsV.
  destruct (wp_returns _ _ _
              (svd_layers lib w layer lin b U0 dg V0 p0 k U S_ V dm dn r
                 Hlt Hl HW Hb HE Hk Hsvd HsU HsS HsV))
    as (ret & w' & Hrun & lv & lu & Hch & _ & Hv & Hu).
  exists ret, w', lv, lu. auto.
Qed.

(** X3. The estimated rank is not checked: when EVBMF keeps no component
    (its diagonal factor has no rows, rank 0), [svd_decomposition_dense_layer]
    still returns a container, of two layers with empty weights, and that
    container maps every input to the bias of the original layer. *)
Theorem svd_rank_zero_returns_bias
  w layer lin b U0 dg V0 p0 U S_ V dm dn r :
  layer < next_id w ->
  heap w !! layer = Some (Linear lin) ->
  shape (linear_weight lin) = [dm; dn] ->
  linear_bias lin = Some b ->
  shape b = [dm] ->
  length (data b) = dm ->
  EVBMF lib (linear_weight lin) = Ok (U0, dg, V0, p0) ->
  shape_at dg 0 = Ok 0 ->
  svd lib (linear_weight lin) = Ok (U, S_, V) ->
  shape U = [dm; r] -> shape S_ = [r] -> shape V = [dn; r] ->
  exists ret w',
    svd_decomposition_dense_layer lib layer w = (Ok ret, w') /\
    forall depth x, 2 <= depth -> shape x = [dn] ->
      forward lib depth (heap w') ret x = Ok b.
Proof.
  intros. eapply wp_returns, svd_rank_zero; eassumption.
Qed.

(** X4. Whatever happens afterwards, [cp_decomposition_conv_layer] calls
    [parafac] exactly once and no other library routine, on the weight of
    the layer with the rank it was given, and with [init = 'random'] exactly
    when [max(X.shape) >= 256], else [init = 'svd']; the random source of
    the library is left as that call left it; and the function prints the layer and the
    rank, followed by the line [Init random] exactly in the random case. *)
Theorem cp_calls_parafac_once w layer rank (m : @module K) X :
  layer < next_id w ->
  heap w !! layer = Some m ->
  module_weight m = Ok X ->
  shape X <> [] ->
  new_calls w (snd (cp_decomposition_conv_layer lib layer rank w))
  = [mkEvent (CallParafac X rank (cp_init X))
       (outcome (fst (parafac lib X rank (cp_init X) (lib_random w))))] /\
  lib_random (snd (cp_decomposition_conv_layer lib layer rank w))
  = snd (parafac lib X rank (cp_init X) (lib_random w)) /\
  stdout (snd (cp_decomposition_conv_layer lib layer rank w))
  = stdout w ++ [PyModule m; PyInt rank]
      :: (if 256 <=? list_max (shape X) then [[PyStr "Init random"]] else []).
Proof.
  intros Hlt Hl HX Hne.
  exact (wp_run _ _ _ (cp_call lib w layer rank m X Hlt Hl HX Hne)).
Qed.

(** X5. Every call of [tucker_decomposition_conv_layer] that returns a
    container has made exactly five library calls, in this order: the
    unfoldings of the weight along modes 0 and 1, EVBMF on the first and on
    the second unfolding, and [partial_tucker] on the weight over modes
    [[0, 1]] with [init = 'svd'] and with the ranks
    [[diag_0.shape[0], diag_1.shape[1]]] that [estimate_ranks_tucker] read
    off the two diagonal factors. *)
Theorem tucker_library_calls w layer ret w' :
  layer < next_id w ->
  tucker_decomposition_conv_layer lib layer w = (Ok ret, w') ->
  exists (m : @module K) X u0 u1 U0 d0 V0 p0 U1 d1 V1 p1 r0 r1,
    heap w !! layer = Some m /\ module_weight m = Ok X /\
    unfold lib X 0 = Ok u0 /\ unfold lib X 1 = Ok u1 /\
    EVBMF lib u0 = Ok (U0, d0, V0, p0) /\
    EVBMF lib u1 = Ok (U1, d1, V1, p1) /\
    shape_at d0 0 = Ok r0 /\ shape_at d1 1 = Ok r1 /\
    new_calls w w'
    = [mkEvent (CallUnfold X 0) None; mkEvent (CallUnfold X 1) None;
       mkEvent (CallEVBMF u0) None; mkEvent (CallEVBMF u1) None;
       mkEvent (CallPartialTucker X [0; 1] [r0; r1] InitSvd) None].
Proof.
  intros Hlt Hrun.
  exact (wp_result _ _ _ _ _ (tucker_calls lib w layer Hlt) Hrun ret eq_refl).
Qed.

(** X6. Every call of [svd_decomposition_dense_layer] that returns a
    container has made exactly two library calls, both on the weight matrix
    itself: EVBMF, whose diagonal factor gives the rank, then [X.svd()]. *)
Theorem svd_library_calls w layer ret w' :
  layer < next_id w ->
  svd_decomposition_dense_layer lib layer w = (Ok ret, w') ->
  exists (m : @module K) X U0 d V0 p0 k U S_ V,
    heap w !! layer = Some m /\ module_weight m = Ok X /\
    EVBMF lib X = Ok (U0, d, V0, p0) /\ shape_at d 0 = Ok k /\
    svd lib X = Ok (U, S_, V) /\
    new_calls w w' = [mkEvent (CallEVBMF X) None; mkEvent (CallSvd X) None].
Proof.
  intros Hlt Hrun.
  exact (wp_result _ _ _ _ _ (svd_calls lib w layer Hlt) Hrun ret eq_refl).
Qed.

(** X7. The weights of the four layers [cp_decomposition_conv_layer] builds
    are the factors [parafac] returned, cast to float32 and with their axes
    moved: entry [(r, s, 0, 0)] of the first pointwise weight is
    [first[s, r]], entry [(r, 0, y, 0)] of the vertical depthwise weight is
    [vertical[y, r]], entry [(r, 0, 0, x)] of the horizontal depthwise weight
    is [horizontal[x, r]], and entry [(t, r, 0, 0)] of the last pointwise
    weight is [last[t, r]]. *)
Theorem cp_weights_are_the_factors
  w layer rank c b last first vertical horizontal g' :
  layer < next_id w ->
  heap w !! layer = Some (Conv2d c) ->
  shape (conv_weight c)
  = [out_channels c; in_channels c / groups c;
     fst (kernel_size c); snd (kernel_size c)] ->
  conv_bias c = Some b ->
  0 < rank ->
  parafac lib (conv_weight c) rank (cp_init (conv_weight c)) (lib_random w)
  = (Ok [last; first; vertical; horizontal], g') ->
  shape last = [out_channels c; rank] ->
  shape first = [in_channels c / groups c; rank] ->
  shape vertical = [fst (kernel_size c); rank] ->
  shape horizontal = [snd (kernel_size c); rank] ->
  length (data last) = out_channels c * rank ->
  exists ret w' c1 c2 c3 c4,
    cp_decomposition_conv_layer lib layer rank w = (Ok ret, w') /\
    children_of (heap w') ret
    = Some [Conv2d c1; Conv2d c2; Conv2d c3; Conv2d c4] /\
    (forall r s, r < rank -> s < in_channels c / groups c ->
       get4 (conv_weight c1) r s 0 0 = float32 lib (get2 first s r)) /\
    (forall r y, r < rank -> y < fst (kernel_size c) ->
       get4 (conv_weight c2) r 0 y 0 = float32 lib (get2 vertical y r)) /\
    (forall r x, r < rank -> x < snd (kernel_size c) ->
       get4 (conv_weight c3) r 0 0 x = float32 lib (get2 horizontal x r)) /\
    (forall t r, t < out_channels c -> r < rank ->
       get4 (conv_weight c4) t r 0 0 = float32 lib (get2 last t r)).
Proof.
  intros Hlt Hl HX Hb Hrank Hpf Hs_last Hs_first Hs_vert Hs_hor Hlen.
  destruct (wp_returns _ _ _
              (cp_weights lib w layer rank c b last first vertical horizontal g'
                 Hlt Hl HX Hb Hrank Hpf Hs_last Hs_first Hs_vert Hs_hor Hlen))
    as (ret & w' & Hrun & c1 & c2 & c3 & c4 & H).
  exists ret, w', c1, c2, c3, c4. split; [exact Hrun | exact H].
Qed.

(** X8. [cp_decomposition_conv_layer] unpacks the result of [parafac] into
    four factors, one per axis of a 4-D weight: when [parafac] returns any
    other number of factors (as it does for the 2-D weight of a dense layer)
    the call ends with the [ValueError] of the unpacking, not enough values
    to unpack (expected 4, got n) for fewer than four and too many values to
    unpack (expected 4) for more, before any layer is built. *)
Theorem cp_wrong_number_of_factors w layer rank (m : @module K) X fs g' :
  layer < next_id w ->
  heap w !! layer = Some m ->
  module_weight m = Ok X ->
  shape X <> [] ->
  parafac lib X rank (cp_init X) (lib_random w) = (Ok fs, g') ->
  length fs <> 4 ->
  fst (cp_decomposition_conv_layer lib layer rank w)
  = Raise (ValueError
             (if length fs <? 4
              then "not enough values to unpack (expected 4, got "
                   ++ decimal (length fs) ++ ")"
              else "too many values to unpack (expected 4)")) /\
  heap (snd (cp_decomposition_conv_layer lib layer rank w)) = heap w /\
  next_id (snd (cp_decomposition_conv_layer lib layer rank w)) = next_id w.
Proof.
  intros Hlt Hl HX Hne Hpf Hlen.
  exact (wp_run _ _ _
           (cp_factor_count lib w layer rank m X fs g' Hlt Hl HX Hne Hpf Hlen)).
Qed.

(** X9. The rank is not checked either: the depthwise layers are built with
    [groups = vertical.shape[1]], so when the factors [parafac] returns have
    no columns (rank 0) [cp_decomposition_conv_layer] ends with the
    [ValueError] of [torch.nn.Conv2d], groups must be positive. *)
Theorem cp_zero_rank_raises
  w layer rank c last first vertical horizontal g' s0 s1 kh :
  layer < next_id w ->
  heap w !! layer = Some (Conv2d c) ->
  shape (conv_weight c) <> [] ->
  parafac lib (conv_weight c) rank (cp_init (conv_weight c)) (lib_random w)
  = (Ok [last; first; vertical; horizontal], g') ->
  shape first = [s0; s1] ->
  shape vertical = [kh; 0] ->
  fst (cp_decomposition_conv_layer lib layer rank w)
  = Raise (ValueError "groups must be a positive integer").
Proof.
  intros Hlt Hl Hne Hpf Hf Hv.
  exact (wp_run _ _ _
           (cp_zero_groups lib w layer rank c last first vertical horizontal g'
              s0 s1 kh Hlt Hl Hne Hpf Hf Hv)).
Qed.

(** X10. The two rank-estimation helpers only read: whatever the layer and
    whether they return or raise, they build and change no module, and they
    leave the random source of the library and torch's generator as they
    were. *)
Theorem rank_estimation_leaves_modules_alone w layer :
  (heap (snd (estimate_ranks_tucker lib layer w)) = heap w /\
   next_id (snd (estimate_ranks_tucker lib layer w)) = next_id w /\
   lib_random (snd (estimate_ranks_tucker lib layer w)) = lib_random w /\
   torch_random (snd (estimate_ranks_tucker lib layer w)) = torch_random w) /\
  (heap (snd (estimate_ranks_svd lib layer w)) = heap w /\
   next_id (snd (estimate_ranks_svd lib layer w)) = next_id w /\
   lib_random (snd (estimate_ranks_svd lib layer w)) = lib_random w /\
   torch_random (snd (estimate_ranks_svd lib layer w)) = torch_random w).
Proof.
  split.
  - run_also (estimate_ranks_tucker lib layer) w.
    start_run w layer; [destruct m0 as [c|lin|cs0] |].
    all: wp_go. all: auto.
  - run_also (estimate_ranks_svd lib layer) w.
    start_run w layer; [destruct m0 as [c|lin|cs0] |].
    all: wp_go. all: auto.
Qed.

(** X11. The container a transformation returns is a new object holding new
    objects only: four layers for CP, three for Tucker, two for SVD, pairwise
    distinct, all of them created by this call, and none of them the input
    layer, which is not part of the result. *)
Theorem returned_container_is_fresh (t : transformation) w layer ret w' :
  layer < next_id w ->
  run_transformation lib t layer w = (Ok ret, w') ->
  exists children,
    heap w' !! ret = Some (Sequential children) /\
    length children = match t with CP _ => 4 | Tucker => 3 | SVD => 2 end /\
    NoDup children /\
    Forall (fun c => next_id w <= c < ret) children /\
    layer <> ret /\ ~ In layer children /\
    next_id w' = S ret.
Proof.
  intros Hlt Hrun. destruct t as [rank| |]; cbn [run_transformation] in Hrun.
  - destruct (wp_result _ _ _ _ _ (cp_fresh lib w layer rank Hlt) Hrun ret eq_refl)
      as (Hret & -> & Hnext).
    fresh_children Hret Hnext.
  - destruct (wp_result _ _ _ _ _ (tucker_fresh lib w layer Hlt) Hrun ret eq_refl)
      as (Hret & -> & Hnext).
    fresh_children Hret Hnext.
  - destruct (wp_result _ _ _ _ _ (svd_fresh lib w layer Hlt) Hrun ret eq_refl)
      as (Hret & -> & Hnext).
    fresh_children Hret Hnext.
Qed.


(** X13. Given a container instead of a layer, each of the three
    transformations ends with [AttributeError] at [layer.weight], before any
    library call, and the heap is the one it started in. *)
Theorem container_as_layer_raises (t : transformation) w layer cs0 :
  heap w !! layer = Some (Sequential (K := K) cs0) ->
  fst (run_transformation lib t layer w)
  = Raise (AttributeError "'Sequential' object has no attribute 'weight'") /\
  new_calls w (snd (run_transformation lib t layer w)) = [] /\
  heap (snd (run_transformation lib t layer w)) = heap w.
Proof.
  intros Hl. destruct t as [rank| |]; cbn [run_transformation].
  - exact (wp_run _ _ _ (cp_container lib w layer rank cs0 Hl)).
  - exact (wp_run _ _ _ (tucker_container lib w layer cs0 Hl)).
  - exact (wp_run _ _ _ (svd_container lib w layer cs0 Hl)).
Qed.

(** X14. In every container [cp_decomposition_conv_layer] returns, all four
    convolutions have the dilation of the input layer, the two pointwise
    ones have [groups = 1] and no padding, and the two depthwise ones have
    as many groups as channels, in and out. In every container
    [tucker_decomposition_conv_layer] returns, all three convolutions have
    the dilation of the input layer and [groups = 1], the core convolution
    has the kernel size and the padding of the input layer, and the two
    pointwise ones have no padding. *)
Theorem dilation_and_groups w layer :
  layer < next_id w ->
  (forall rank ret w',
     cp_decomposition_conv_layer lib layer rank w = (Ok ret, w') ->
     exists c c1 c2 c3 c4,
       heap w !! layer = Some (Conv2d c) /\
       children_of (heap w') ret
       = Some [Conv2d c1; Conv2d c2; Conv2d c3; Conv2d c4] /\
       (dilation c1 = dilation c /\ dilation c2 = dilation c /\
        dilation c3 = dilation c /\ dilation c4 = dilation c) /\
       (groups c1 = 1 /\ groups c4 = 1 /\
        padding c1 = (0, 0) /\ padding c4 = (0, 0)) /\
       (groups c2 = in_channels c2 /\ out_channels c2 = in_channels c2 /\
        groups c3 = in_channels c3 /\ out_channels c3 = in_channels c3)) /\
  (forall ret w',
     tucker_decomposition_conv_layer lib layer w = (Ok ret, w') ->
     exists c c1 c2 c3,
       heap w !! layer = Some (Conv2d c) /\
       children_of (heap w') ret = Some [Conv2d c1; Conv2d c2; Conv2d c3] /\
       (dilation c1 = dilation c /\ dilation c2 = dilation c /\
        dilation c3 = dilation c) /\
       (groups c1 = 1 /\ groups c2 = 1 /\ groups c3 = 1) /\
       (padding c1 = (0, 0) /\ padding c2 = padding c /\ padding c3 = (0, 0)) /\
       kernel_size c2 = kernel_size c).
Proof.
  intros Hlt. split.
  - intros rank ret w' Hrun.
    exact (wp_result _ _ _ _ _ (cp_dilation_groups lib w layer rank Hlt)
             Hrun ret eq_refl).
  - intros ret w' Hrun.
    exact (wp_result _ _ _ _ _ (tucker_dilation_groups lib w layer Hlt)
             Hrun ret eq_refl).
Qed.

End Properties.

(** ** The properties on concrete layers *)

Lemma svd_layers_declared_features_witness :
  exists ret w' lv lu,
    svd_decomposition_dense_layer demo_lib 0 (world_with dense_layer 0)
    = (Ok ret, w') /\
    children_of (heap w') ret = Some [Linear lv; Linear lu] /\
    (in_features lv, out_features lv) = (2, 3) /\
    shape (linear_weight lv) = [Nat.min 2 2; 3] /\
    (in_features lu, out_features lu) = (2, 2) /\
    shape (linear_weight lu) = [2; Nat.min 2 2].
Proof.
  apply (svd_layers_declared_features demo_lib
           (world_with dense_layer 0) 0 dense_lin dense_bias
           (eye 2 2) (eye 2 2) (eye 3 2) [] 2
           (eye 2 2) (fill [2] 1%Z) (eye 3 2) 2 3 2).
  - cbn. lia.
  - reflexivity.
  - reflexivity.
  - reflexivity.
  - reflexivity.
  - reflexivity.
  - reflexivity.
  - reflexivity.
  - reflexivity.
  - reflexivity.
Defined.

Lemma svd_weights_entries_witness :
  exists ret w' lv lu,
    svd_decomposition_dense_layer demo_lib 0 (world_with dense_layer 0)
    = (Ok ret, w') /\
    children_of (heap w') ret = Some [Linear lv; Linear lu] /\
    (forall i j, i < Nat.min 2 2 -> j < 3 ->
       get2 (linear_weight lv) i j = get2 (eye 3 2) j i) /\
    (forall p i, p < 2 -> i < Nat.min 2 2 ->
       get2 (linear_weight lu) p i
       = smul (get2 (eye 2 2) p i) (get1 (fill [2] 1%Z) i)).
Proof.
  apply (svd_weights_entries demo_lib
           (world_with dense_layer 0) 0 dense_lin dense_bias
           (eye 2 2) (eye 2 2) (eye 3 2) [] 2
           (eye 2 2) (fill [2] 1%Z) (eye 3 2) 2 3 2).
  - cbn. lia.
  - reflexivity.
  - reflexivity.
  - reflexivity.
  - reflexivity.
  - reflexivity.
  - reflexivity.
  - reflexivity.
  - reflexivity.
  - reflexivity.
Defined.

Lemma svd_rank_zero_returns_bias_witness :
  exists ret w',
    svd_decomposition_dense_layer zero_rank_lib 0 (world_with dense_layer 0)
    = (Ok ret, w') /\
    forall depth x, 2 <= depth -> shape x = [3] ->
      forward zero_rank_lib depth (heap w') ret x = Ok dense_bias.
Proof.
  apply (svd_rank_zero_returns_bias zero_rank_lib
           (world_with dense_layer 0) 0 dense_lin dense_bias
           (eye 2 0) (eye 0 0) (eye 3 0) []
           (eye 2 2) (fill [2] 1%Z) (eye 3 2) 2 3 2).
  - cbn. lia.
  - reflexivity.
  - reflexivity.
  - reflexivity.
  - reflexivity.
  - reflexivity.
  - reflexivity.
  - reflexivity.
  - reflexivity.
  - reflexivity.
  - reflexivity.
  - reflexivity.
Defined.

Lemma cp_calls_parafac_once_witness :
  new_calls (world_with wide_conv_layer 0)
    (snd (cp_decomposition_conv_layer demo_lib 0 1 (world_with wide_conv_layer 0)))
  = [mkEvent (CallParafac (conv_weight wide_c) 1 (cp_init (conv_weight wide_c)))
       (outcome (fst (parafac demo_lib (conv_weight wide_c) 1
                        (cp_init (conv_weight wide_c))
                        (lib_random (world_with wide_conv_layer 0)))))] /\
  lib_random
    (snd (cp_decomposition_conv_layer demo_lib 0 1 (world_with wide_conv_layer 0)))
  = snd (parafac demo_lib (conv_weight wide_c) 1 (cp_init (conv_weight wide_c))
           (lib_random (world_with wide_conv_layer 0))) /\
  stdout
    (snd (cp_decomposition_conv_layer demo_lib 0 1 (world_with wide_conv_layer 0)))
  = stdout (world_with wide_conv_layer 0) ++ [PyModule wide_conv_layer; PyInt 1]
      :: (if 256 <=? list_max (shape (conv_weight wide_c))
          then [[PyStr "Init random"]] else []).
Proof.
  apply (cp_calls_parafac_once demo_lib (world_with wide_conv_layer 0) 0 1
           wide_conv_layer (conv_weight wide_c)).
  - cbn. lia.
  - reflexivity.
  - reflexivity.
  - discriminate.
Defined.

Lemma tucker_library_calls_witness :
  exists (m : @module Zs) X u0 u1 U0 d0 V0 p0 U1 d1 V1 p1 r0 r1,
    heap (world_with conv_layer 0) !! 0 = Some m /\ module_weight m = Ok X /\
    unfold demo_lib X 0 = Ok u0 /\ unfold demo_lib X 1 = Ok u1 /\
    EVBMF demo_lib u0 = Ok (U0, d0, V0, p0) /\
    EVBMF demo_lib u1 = Ok (U1, d1, V1, p1) /\
    shape_at d0 0 = Ok r0 /\ shape_at d1 1 = Ok r1 /\
    new_calls (world_with conv_layer 0)
      (snd (tucker_decomposition_conv_layer demo_lib 0 (world_with conv_layer 0)))
    = [mkEvent (CallUnfold X 0) None; mkEvent (CallUnfold X 1) None;
       mkEvent (CallEVBMF u0) None; mkEvent (CallEVBMF u1) None;
       mkEvent (CallPartialTucker X [0; 1] [r0; r1] InitSvd) None].
Proof.
  apply (tucker_library_calls demo_lib (world_with conv_layer 0) 0 4
           (snd (tucker_decomposition_conv_layer demo_lib 0
                   (world_with conv_layer 0)))).
  - cbn. lia.
  - apply pair_eta_fst. vm_compute. reflexivity.
Defined.

Lemma svd_library_calls_witness :
  exists (m : @module Zs) X U0 d V0 p0 k U S_ V,
    heap (world_with dense_layer 0) !! 0 = Some m /\ module_weight m = Ok X /\
    EVBMF demo_lib X = Ok (U0, d, V0, p0) /\ shape_at d 0 = Ok k /\
    svd demo_lib X = Ok (U, S_, V) /\
    new_calls (world_with dense_layer 0)
      (snd (svd_decomposition_dense_layer demo_lib 0 (world_with dense_layer 0)))
    = [mkEvent (CallEVBMF X) None; mkEvent (CallSvd X) None].
Proof.
  apply (svd_library_calls demo_lib (world_with dense_layer 0) 0 3
           (snd (svd_decomposition_dense_layer demo_lib 0
                   (world_with dense_layer 0)))).
  - cbn. lia.
  - apply pair_eta_fst. vm_compute. reflexivity.
Defined.

Lemma cp_weights_are_the_factors_witness :
  exists ret w' c1 c2 c3 c4,
    cp_decomposition_conv_layer demo_lib 0 2 (world_with conv_layer 0)
    = (Ok ret, w') /\
    children_of (heap w') ret
    = Some [Conv2d c1; Conv2d c2; Conv2d c3; Conv2d c4] /\
    (forall r s, r < 2 -> s < in_channels conv_c / groups conv_c ->
       get4 (conv_weight c1) r s 0 0
       = float32 demo_lib (get2 (fill [2; 2] 1%Z) s r)) /\
    (forall r y, r < 2 -> y < fst (kernel_size conv_c) ->
       get4 (conv_weight c2) r 0 y 0
       = float32 demo_lib (get2 (fill [3; 2] 1%Z) y r)) /\
    (forall r x, r < 2 -> x < snd (kernel_size conv_c) ->
       get4 (conv_weight c3) r 0 0 x
       = float32 demo_lib (get2 (fill [3; 2] 1%Z) x r)) /\
    (forall t r, t < out_channels conv_c -> r < 2 ->
       get4 (conv_weight c4) t r 0 0
       = float32 demo_lib (get2 (fill [3; 2] 1%Z) t r)).
Proof.
  apply (cp_weights_are_the_factors demo_lib
           (world_with conv_layer 0) 0 2 conv_c (fill [3] 7%Z)
           (fill [3; 2] 1%Z) (fill [2; 2] 1%Z) (fill [3; 2] 1%Z)
           (fill [3; 2] 1%Z) 0).
  - cbn. lia.
  - reflexivity.
  - reflexivity.
  - reflexivity.
  - lia.
  - vm_compute. reflexivity.
  - reflexivity.
  - reflexivity.
  - reflexivity.
  - reflexivity.
  - reflexivity.
Defined.

Lemma cp_wrong_number_of_factors_witness :
  fst (cp_decomposition_conv_layer demo_lib 0 1 (world_with dense_layer 0))
  = Raise (ValueError "not enough values to unpack (expected 4, got 2)") /\
  heap (snd (cp_decomposition_conv_layer demo_lib 0 1 (world_with dense_layer 0)))
  = heap (world_with dense_layer 0) /\
  next_id (snd (cp_decomposition_conv_layer demo_lib 0 1 (world_with dense_layer 0)))
  = next_id (world_with dense_layer 0).
Proof.
  apply (cp_wrong_number_of_factors demo_lib (world_with dense_layer 0) 0 1
           dense_layer dense_weight [fill [2; 1] 1%Z; fill [3; 1] 1%Z] 0).
  - cbn. lia.
  - reflexivity.
  - reflexivity.
  - discriminate.
  - vm_compute. reflexivity.
  - cbn. lia.
Defined.

Lemma cp_zero_rank_raises_witness :
  fst (cp_decomposition_conv_layer demo_lib 0 0 (world_with conv_layer 0))
  = Raise (ValueError "groups must be a positive integer").
Proof.
  apply (cp_zero_rank_raises demo_lib (world_with conv_layer 0) 0 0 conv_c
           (fill [3; 0] 1%Z) (fill [2; 0] 1%Z) (fill [3; 0] 1%Z)
           (fill [3; 0] 1%Z) 0 2 0 3).
  - cbn. lia.
  - reflexivity.
  - discriminate.
  - vm_compute. reflexivity.
  - reflexivity.
  - reflexivity.
Defined.

Lemma returned_container_is_fresh_witness :
  exists children,
    heap (snd (run_transformation demo_lib Tucker 0 (world_with conv_layer 0))) !! 4
    = Some (Sequential children) /\
    length children = 3 /\
    NoDup children /\
    Forall (fun c => next_id (world_with conv_layer 0) <= c < 4) children /\
    0 <> 4 /\ ~ In 0 children /\
    next_id (snd (run_transformation demo_lib Tucker 0 (world_with conv_layer 0)))
    = 5.
Proof.
  apply (returned_container_is_fresh demo_lib Tucker (world_with conv_layer 0) 0 4
           (snd (run_transformation demo_lib Tucker 0 (world_with conv_layer 0)))).
  - cbn. lia.
  - apply pair_eta_fst. vm_compute. reflexivity.
Defined.


Lemma container_as_layer_raises_witness :
  fst (run_transformation demo_lib SVD 0 (world_with container 0))
  = Raise (AttributeError "'Sequential' object has no attribute 'weight'") /\
  new_calls (world_with container 0)
    (snd (run_transformation demo_lib SVD 0 (world_with container 0))) = [] /\
  heap (snd (run_transformation demo_lib SVD 0 (world_with container 0)))
  = heap (world_with container 0).
Proof.
  apply (container_as_layer_raises demo_lib SVD (world_with container 0) 0 []).
  reflexivity.
Defined.

Lemma dilation_and_groups_witness :
  (exists c c1 c2 c3 c4,
     heap (world_with conv_layer 0) !! 0 = Some (Conv2d c) /\
     children_of
       (heap (snd (cp_decomposition_conv_layer demo_lib 0 2
                     (world_with conv_layer 0)))) 5
     = Some [Conv2d c1; Conv2d c2; Conv2d c3; Conv2d c4] /\
     (dilation c1 = dilation c /\ dilation c2 = dilation c /\
      dilation c3 = dilation c /\ dilation c4 = dilation c) /\
     (groups c1 = 1 /\ groups c4 = 1 /\
      padding c1 = (0, 0) /\ padding c4 = (0, 0)) /\
     (groups c2 = in_channels c2 /\ out_channels c2 = in_channels c2 /\
      groups c3 = in_channels c3 /\ out_channels c3 = in_channels c3)) /\
  (exists c c1 c2 c3,
     heap (world_with conv_layer 0) !! 0 = Some (Conv2d c) /\
     children_of
       (heap (snd (tucker_decomposition_conv_layer demo_lib 0
                     (world_with conv_layer 0)))) 4
     = Some [Conv2d c1; Conv2d c2; Conv2d c3] /\
     (dilation c1 = dilation c /\ dilation c2 = dilation c /\
      dilation c3 = dilation c) /\
     (groups c1 = 1 /\ groups c2 = 1 /\ groups c3 = 1) /\
     (padding c1 = (0, 0) /\ padding c2 = padding c /\ padding c3 = (0, 0)) /\
     kernel_size c2 = kernel_size c).
Proof.
  destruct (dilation_and_groups demo_lib (world_with conv_layer 0) 0
              ltac:(cbn; lia)) as [Hcp Htucker].
  split.
  - apply (Hcp 2). apply pair_eta_fst. vm_compute. reflexivity.
  - apply Htucker. apply pair_eta_fst. vm_compute. reflexivity.
Defined.
